(** * SEMOpx price client ([custom_components/semopx/aio_price.py])

    A shallow embedding of the class [AioPrices] and the properties of
    its index walker ([_fetch_semopx_json]), its result merger
    ([_retrieve_market_results], [_merge_prices], [_finalize_records])
    and the retrying [fetch].

    Conventions of the embedding:
    - a decoded JSON document is a [pyval], the Python value that
      [resp.json()] hands to the code; every subscript, iteration, [in]
      test and division is the Python operation on such a value, with the
      exception it raises on a value of the wrong type;
    - a Python float is an IEEE 754 binary64 number ([spec_float] of the
      Standard Library at precision 53), so [price / 1000] is the rounded
      quotient Python computes;
    - a string is a Rocq [string], one character per Python character;
    - the network is a queue of responses: the n-th request the code
      issues receives the n-th response, and every request is logged;
    - [dateutil] and [pytz] are an interface ([DateLib]) the development
      is parametric in. *)

From Stdlib Require Import ZArith String Ascii List Bool Lia.
From Stdlib Require Import Floats.SpecFloat.
From stdpp Require Import gmap strings list fin_maps.

#[local] Set Warnings "-register-all".
Local Open Scope string_scope.
Local Open Scope Z_scope.
Local Open Scope list_scope.

(** ** Python values and exceptions *)

Module Py.

(** The values [json.loads] produces, and the values stored in a price
    record.  A [PyDict] lists its items in insertion order, each key
    once. *)
Inductive pyval : Type :=
| PyNone
| PyBool (b : bool)
| PyInt (z : Z)
| PyFloat (f : spec_float)
| PyStr (s : string)
| PyList (l : list pyval)
| PyDict (items : list (string * pyval)).

(** The exceptions the code can raise.  [ParserError] is the subclass of
    [ValueError] that [dateutil.parser.parse] raises. *)
Inductive exn : Type :=
| ClientError
| KeyError
| TypeError
| IndexError
| AttributeError
| OverflowError
| UnboundLocalError
| ParserError
| ValueError (msg : string).

(** A computation that returns or raises. *)
Inductive res (A : Type) : Type :=
| Ok (a : A)
| Raise (e : exn).
Arguments Ok {A} a.
Arguments Raise {A} e.

Definition res_bind {A B} (c : res A) (k : A -> res B) : res B :=
  match c with
  | Ok a => k a
  | Raise e => Raise e
  end.

(** [for x in xs: acc = f(acc, x)], stopping at the first exception. *)
Fixpoint res_fold {A B} (f : A -> B -> res A) (acc : A) (xs : list B) : res A :=
  match xs with
  | [] => Ok acc
  | x :: xs' => res_bind (f acc x) (fun acc' => res_fold f acc' xs')
  end.

(** [[f(x) for x in xs]]. *)
Fixpoint res_map {A B} (f : A -> res B) (xs : list A) : res (list B) :=
  match xs with
  | [] => Ok []
  | x :: xs' =>
      res_bind (f x) (fun y => res_bind (res_map f xs') (fun ys => Ok (y :: ys)))
  end.

(** *** Strings *)

(** [needle in hay] on two [str]. *)
Fixpoint str_in (needle hay : string) : bool :=
  String.prefix needle hay
  || match hay with
     | EmptyString => false
     | String _ hay' => str_in needle hay'
     end.

(** [s[:n]]. *)
Definition str_take (n : nat) (s : string) : string := String.substring 0 n s.

(** The characters of [s], each as a [str] of length one. *)
Fixpoint str_chars (s : string) : list pyval :=
  match s with
  | EmptyString => []
  | String c s' => PyStr (String c EmptyString) :: str_chars s'
  end.

(** *** Floats *)

Definition prec : Z := 53.
Definition emax : Z := 1024.

(** [float(z)] for [z] an [int] below 2^53 in magnitude, and the
    dividend of an [int / int] division for every [z]. *)
Definition float_of_int (z : Z) : spec_float :=
  match z with
  | Z0 => S754_zero false
  | Zpos p => S754_finite false p 0
  | Zneg p => S754_finite true p 0
  end.

(** [z >= f] for an [int] and a [float], compared exactly as Python
    does. *)
Definition int_ge_float (z : Z) (f : spec_float) : bool :=
  match f with
  | S754_nan => false
  | S754_infinity s => s
  | S754_zero _ => 0 <=? z
  | S754_finite s m e =>
      let v := if s then Z.neg m else Z.pos m in
      if 0 <=? e then v * 2 ^ e <=? z else v <=? z * 2 ^ (- e)
  end.

(** *** Operations on values *)

(** [bool(o)]. *)
Definition truthy (o : pyval) : bool :=
  match o with
  | PyNone => false
  | PyBool b => b
  | PyInt z => negb (z =? 0)
  | PyFloat (S754_zero _) => false
  | PyFloat _ => true
  | PyStr s => negb (String.eqb s "")
  | PyList l => match l with [] => false | _ => true end
  | PyDict d => match d with [] => false | _ => true end
  end.

Fixpoint assoc (k : string) (d : list (string * pyval)) : option pyval :=
  match d with
  | [] => None
  | (k', v) :: d' => if String.eqb k k' then Some v else assoc k d'
  end.

(** [o[k]] for a [str] key. *)
Definition getitem_str (o : pyval) (k : string) : res pyval :=
  match o with
  | PyDict d => match assoc k d with Some v => Ok v | None => Raise KeyError end
  | _ => Raise TypeError
  end.

(** [l[i]] on a [list], a negative index counting from the end. *)
Definition list_getitem {A} (l : list A) (i : Z) : res A :=
  let j := if i <? 0 then i + Z.of_nat (length l) else i in
  if j <? 0 then Raise IndexError
  else match l !! Z.to_nat j with
       | Some x => Ok x
       | None => Raise IndexError
       end.

(** [o[i]] for an [int] index.  The keys of a decoded document are
    strings, so an [int] is never a key of a [PyDict]. *)
Definition getitem_int (o : pyval) (i : Z) : res pyval :=
  match o with
  | PyList l => list_getitem l i
  | PyStr s => list_getitem (str_chars s) i
  | PyDict _ => Raise KeyError
  | _ => Raise TypeError
  end.

(** [o[:n]].  On a [dict] the slice is looked up as a key, which is
    absent (a [KeyError] since slices are hashable, Python 3.12). *)
Definition slice_to (n : nat) (o : pyval) : res pyval :=
  match o with
  | PyStr s => Ok (PyStr (str_take n s))
  | PyList l => Ok (PyList (firstn n l))
  | PyDict _ => Raise KeyError
  | _ => Raise TypeError
  end.

(** The hash of a dictionary key: of the values a slice can produce only
    a [str] is hashable. *)
Definition hashable (o : pyval) : res string :=
  match o with
  | PyStr s => Ok s
  | _ => Raise TypeError
  end.

(** [iter(o)], run to the end. *)
Definition py_iter (o : pyval) : res (list pyval) :=
  match o with
  | PyList l => Ok l
  | PyStr s => Ok (str_chars s)
  | PyDict d => Ok (map (fun kv => PyStr (fst kv)) d)
  | _ => Raise TypeError
  end.

Definition is_str (s : string) (o : pyval) : bool :=
  match o with
  | PyStr s' => String.eqb s s'
  | _ => false
  end.

(** [s in o] for a [str] [s]. *)
Definition contains (s : string) (o : pyval) : res bool :=
  match o with
  | PyStr hay => Ok (str_in s hay)
  | PyList l => Ok (existsb (is_str s) l)
  | PyDict d => Ok (existsb (fun kv => String.eqb s (fst kv)) d)
  | _ => Raise TypeError
  end.

(** [page >= o] for an [int] [page]. *)
Definition int_ge (page : Z) (o : pyval) : res bool :=
  match o with
  | PyInt z => Ok (z <=? page)
  | PyBool b => Ok ((if b then 1 else 0) <=? page)
  | PyFloat f => Ok (int_ge_float page f)
  | _ => Raise TypeError
  end.

(** [1000.0]. *)
Definition float_1000 : spec_float := S754_finite false 8796093022208000 (-43).

(** [o / 1000]: true division.  An [int] dividend gives the correctly
    rounded quotient, or [OverflowError] when that is too large for a
    float; a [float] dividend is divided by [1000.0]. *)
Definition truediv_1000 (o : pyval) : res spec_float :=
  let int_div z :=
    match SFdiv prec emax (float_of_int z) (float_of_int 1000) with
    | S754_infinity _ => Raise OverflowError
    | q => Ok q
    end in
  match o with
  | PyInt z => int_div z
  | PyBool b => int_div (if b then 1 else 0)
  | PyFloat f => Ok (SFdiv prec emax f float_1000)
  | _ => Raise TypeError
  end.

End Py.
Export Py.

Notation "'let*' x := c 'in' k" := (res_bind c (fun x => k))
  (at level 10, x pattern, c at level 100, k at level 200).

(** ** The network *)

Module Net.

(** A request the client sends: the static-report index with
    [params['page'] = page], or the document [SEMOPX_API_RETRIEVAL_URL/resource_name]. *)
Inductive request : Type :=
| GetIndex (page : Z)
| GetDocument (resource_name : pyval).

(** What a request meets: status 204, a JSON body, a body that is empty
    (for which [resp.json()] gives [None]), or an [aiohttp.ClientError].
    A body that is not JSON ([resp.json()] raises [json.JSONDecodeError])
    and a request that times out ([asyncio.TimeoutError]) are not among
    these answers: nothing below speaks of a run that meets one. *)
Inductive response : Type :=
| Status204
| JsonBody (doc : pyval)
| EmptyBody
| ClientFailure.

(** The responses still to come and the requests sent so far. *)
Record world : Type := World {
  pending : list response;
  issued : list request
}.

(** The end of a computation that talks to the network: it returns, it
    raises, or it is left waiting for a response the queue does not
    hold. *)
Inductive outcome (A : Type) : Type :=
| Returned (a : A)
| Raised (e : exn)
| Starved.
Arguments Returned {A} a.
Arguments Raised {A} e.
Arguments Starved {A}.

Definition io (A : Type) : Type := world -> outcome A * world.

Definition io_ret {A} (a : A) : io A := fun w => (Returned a, w).

Definition io_bind {A B} (c : io A) (k : A -> io B) : io B :=
  fun w =>
    match c w with
    | (Returned a, w') => k a w'
    | (Raised e, w') => (Raised e, w')
    | (Starved, w') => (Starved, w')
    end.

Definition io_lift {A} (c : res A) : io A :=
  fun w =>
    match c with
    | Ok a => (Returned a, w)
    | Raise e => (Raised e, w)
    end.

(** [for x in xs: acc = await f(acc, x)]. *)
Fixpoint io_fold {A B} (f : A -> B -> io A) (acc : A) (xs : list B) : io A :=
  match xs with
  | [] => io_ret acc
  | x :: xs' => io_bind (f acc x) (fun acc' => io_fold f acc' xs')
  end.

End Net.
Export Net.

Notation "'let!' x := c 'in' k" := (io_bind c (fun x => k))
  (at level 10, x pattern, c at level 100, k at level 200).

(** ** The date libraries *)

(** What the code uses of [dateutil] and [pytz]. *)
Class DateLib : Type := {
  (** a [datetime] object *)
  datetime : Type;
  (** [dateutil.parser.parse(s)]; [None] when it raises [ParserError] *)
  parse_dt : string -> option datetime;
  (** [int(dt.timestamp())] *)
  timestamp : datetime -> Z;
  (** [pytz.all_timezones] *)
  all_timezones : list string;
  (** [dt.astimezone(pytz.timezone(tz))] for [tz] in [all_timezones] *)
  astimezone : datetime -> string -> datetime;
  (** [dt.strftime('%Y/%m/%d %H:%M:%S')] *)
  strftime : datetime -> string
}.

(** ** class AioPrices *)

(** The attributes of [self] that the methods read. *)
Record AioPrices : Type := {
  currency : string;
  market_area : string;
  timezone : string
}.

(** [AioPrices()] with the defaults of [__init__]. *)
Definition default_prices : AioPrices :=
  {| currency := "euro"; market_area := "ROI"; timezone := "Europe/Dublin" |}.

(** [_async_fetch]: send the request; status 204 gives [None], else
    [await resp.json()].  The exceptions of [client.get] and
    [resp.json()] other than [aiohttp.ClientError] have no answer of
    [response] and are left out. *)
Definition _async_fetch (req : request) : io pyval :=
  fun w =>
    let log := issued w ++ [req] in
    match pending w with
    | [] => (Starved, World [] log)
    | Status204 :: rest => (Returned PyNone, World rest log)
    | JsonBody doc :: rest => (Returned doc, World rest log)
    | EmptyBody :: rest => (Returned PyNone, World rest log)
    | ClientFailure :: rest => (Raised ClientError, World rest log)
    end.

(** *** The index walker *)

(** One entry of [report_dict]: [{'date': date, 'resources': resources}]. *)
Record report : Type := Report {
  date : string;
  resources : list pyval
}.

(** [report_dict], in insertion order.  The [report] objects are shared
    between the dictionary and the local variable [report] of the walker:
    that variable is modelled by the key under which the object it is
    bound to is stored ([None] while it is unbound). *)
Definition reports : Type := list (string * report).

Definition has_key (k : string) (d : reports) : bool :=
  existsb (fun kv => String.eqb k (fst kv)) d.

(** [report['resources'].append(r)] for the object stored under [k]. *)
Definition append_resource (k : string) (r : pyval) (d : reports) : reports :=
  map (fun kv =>
         if String.eqb k (fst kv)
         then (fst kv, Report (date (snd kv)) (resources (snd kv) ++ [r]))
         else kv) d.

(** The body of [for item_rec in semopx_resp_dict['items']]. *)
Definition add_item (st : reports * option string) (item_rec : pyval)
  : res (reports * option string) :=
  let '(report_dict, report) := st in
  let* d := getitem_str item_rec "Date" in
  let* s := slice_to 10 d in
  let* key_date := hashable s in
  let '(report_dict, report) :=
    if negb (has_key key_date report_dict)
    then (report_dict ++ [(key_date, Report key_date [])], Some key_date)
    else (report_dict, report) in
  match report with
  | None => Raise UnboundLocalError
  | Some k =>
      let* r := getitem_str item_rec "ResourceName" in
      Ok (append_resource k r report_dict, report)
  end.

(** One turn of [while True]: [page] is the value after [page += 1]. *)
Definition walk_page (days : Z) (page : Z) (st : reports * option string)
  : io (bool * (reports * option string)) :=
  let! semopx_resp_dict := _async_fetch (GetIndex page) in
  let! items := io_lift (getitem_str semopx_resp_dict "items") in
  let! item_recs := io_lift (py_iter items) in
  let! st' := io_lift (res_fold add_item st item_recs) in
  let! pagination := io_lift (getitem_str semopx_resp_dict "pagination") in
  let! total_pages := io_lift (getitem_str pagination "totalPages") in
  let! last := io_lift (int_ge page total_pages) in
  io_ret (last || (days <? Z.of_nat (length (fst st'))), st').

(** The loop; [fuel] bounds the number of turns. *)
Fixpoint walk (fuel : nat) (days : Z) (page : Z) (st : reports * option string)
  : io reports :=
  match fuel with
  | O => fun w => (Starved, w)
  | S fuel' =>
      let page := page + 1 in
      let! (stop, st') := walk_page days page st in
      if (stop : bool) then io_ret (fst st') else walk fuel' days page st'
  end.

(** [_fetch_semopx_json]: every turn takes a response off the queue, so
    one turn more than the queue is long is fuel enough. *)
Definition _fetch_semopx_json (days : Z) : io reports :=
  fun w => walk (S (length (pending w))) days 0 ([], None) w.

(** *** The result merger *)

(** A price record, a [dict] from field name to value, and [rec_dict],
    from epoch timestamp to record.  Equality is that of Python
    dictionaries: the order of insertion does not count. *)
Abbreviation record := (gmap string pyval).
Abbreviation records := (gmap Z (gmap string pyval)).

(** The value [fetch] returns: [{"areas": areas}]. *)
Record prices : Type := Prices { areas : records }.

(** [_determine_context_prefix]. *)
Definition _determine_context_prefix (resource_name : pyval) : res (option string) :=
  let* da := contains "SEM-DA" resource_name in
  if (da : bool) then Ok (Some "da_") else
  let* ida1 := contains "SEM-IDA1" resource_name in
  if (ida1 : bool) then Ok (Some "ida1_") else
  let* ida2 := contains "SEM-IDA2" resource_name in
  if (ida2 : bool) then Ok (Some "ida2_") else
  let* ida3 := contains "SEM-IDA3" resource_name in
  if (ida3 : bool) then Ok (Some "ida3_") else
  Ok None.

(** [_finalize_records], on one record and on all of them. *)
Definition finalize_record (rec : record) : record :=
  match rec !! "ida3_kwh_rate" with
  | Some v => <["final_kwh_rate" := v]> rec
  | None =>
  match rec !! "ida2_kwh_rate" with
  | Some v => <["final_kwh_rate" := v]> rec
  | None =>
  match rec !! "ida1_kwh_rate" with
  | Some v => <["final_kwh_rate" := v]> rec
  | None =>
  match rec !! "da_kwh_rate" with
  | Some v => <["final_kwh_rate" := v]> rec
  | None => rec
  end end end end.

Definition _finalize_records (rec_dict : records) : records :=
  finalize_record <$> rec_dict.

Section Methods.
Context {lib : DateLib}.
Variable self : AioPrices.

(** [_parse_semopx_time]: [parse_dt] runs first, then the check of the
    configured timezone. *)
Definition _parse_semopx_time (datetime_str : pyval) : res (Z * datetime) :=
  match datetime_str with
  | PyStr s =>
      match parse_dt s with
      | None => Raise ParserError
      | Some utc_dt =>
          if negb (existsb (String.eqb (timezone self)) all_timezones)
          then Raise (ValueError (String.append "Invalid timezone: " (timezone self)))
          else Ok (timestamp utc_dt, astimezone utc_dt (timezone self))
      end
  | _ => Raise TypeError
  end.

(** The record [data_rec] that [_merge_prices] creates for the entry
    [key] of [key_list]. *)
Definition data_rec (key : Z * datetime) : record :=
  <["ts" := PyInt (fst key)]>
  (<["datetime" := PyStr (strftime (snd key))]>
  (<["market_area" := PyStr (market_area self)]>
  (<["currency" := PyStr (currency self)]> ∅))).

(** [f'{context_prefix}kwh_rate']. *)
Definition rate_field (context_prefix : string) : string :=
  String.append context_prefix "kwh_rate".

(** The body of [for price in data_set_list[3]]; the state is [i] and
    [rec_dict]. *)
Definition merge_price (key_list : list (Z * datetime)) (context_prefix : string)
    (st : Z * records) (price : pyval) : res (Z * records) :=
  let '(i, rec_dict) := st in
  let i := i + 1 in
  let* key := list_getitem key_list i in
  let ts := fst key in
  let rec_dict :=
    match rec_dict !! ts with
    | Some _ => rec_dict
    | None => <[ts := data_rec key]> rec_dict
    end in
  let* rate := truediv_1000 price in
  match rec_dict !! ts with
  | Some rec => Ok (i, <[ts := <[rate_field context_prefix := PyFloat rate]> rec]> rec_dict)
  | None => Raise KeyError
  end.

(** [_merge_prices]. *)
Definition _merge_prices (rec_dict : records) (key_list : list (Z * datetime))
    (data_set_list : pyval) (context_prefix : string) : res records :=
  let* column := getitem_int data_set_list 3 in
  let* price_list := py_iter column in
  let* st := res_fold (merge_price key_list context_prefix) (-1, rec_dict) price_list in
  Ok (snd st).

(** The body of [for data_set_list in semopx_resp_dict.get('rows', [])]. *)
Definition merge_row (context_prefix : string) (rec_dict : records)
    (data_set_list : pyval) : res records :=
  let* head := getitem_int data_set_list 0 in
  let* area := getitem_int head 1 in
  let* found := contains (market_area self) area in
  if negb found then Ok rec_dict else
  let* column := getitem_int data_set_list 2 in
  let* date_strs := py_iter column in
  let* key_list := res_map _parse_semopx_time date_strs in
  _merge_prices rec_dict key_list data_set_list context_prefix.

(** [o.get(k, default)]: only a [dict] has the method. *)
Definition dict_get (o : pyval) (k : string) (default : pyval) : res pyval :=
  match o with
  | PyDict d => Ok (match assoc k d with Some v => v | None => default end)
  | _ => Raise AttributeError
  end.

(** The body of [for resource_name in report['resources']]. *)
Definition merge_resource (rec_dict : records) (resource_name : pyval) : io records :=
  let! semopx_resp_dict := _async_fetch (GetDocument resource_name) in
  if negb (truthy semopx_resp_dict) then io_ret rec_dict else
  let! context_prefix := io_lift (_determine_context_prefix resource_name) in
  match context_prefix with
  | None => io_ret rec_dict
  | Some context_prefix =>
      let! rows := io_lift (dict_get semopx_resp_dict "rows" (PyList [])) in
      let! data_sets := io_lift (py_iter rows) in
      io_lift (res_fold (merge_row context_prefix) rec_dict data_sets)
  end.

(** [_retrieve_market_results]. *)
Definition _retrieve_market_results (report_dict : reports) : io prices :=
  let! rec_dict :=
    io_fold (fun rec_dict kv => io_fold merge_resource rec_dict (resources (snd kv)))
            (∅ : records) report_dict in
  let rec_dict := _finalize_records rec_dict in
  io_ret (if decide (rec_dict = ∅) then Prices ∅ else Prices rec_dict).

(** *** fetch *)

(** The exceptions [backoff.on_exception] is told to retry on:
    [(aiohttp.ClientError, KeyError)]. *)
Definition retried (e : exn) : bool :=
  match e with
  | ClientError | KeyError => true
  | _ => false
  end.

(** [backoff.on_exception(backoff.expo, ...)] without [max_tries]: call
    the target again after every retried exception, pass any other on. *)
Fixpoint on_exception {A} (fuel : nat) (target : io A) : io A :=
  match fuel with
  | O => fun w => (Starved, w)
  | S fuel' =>
      fun w =>
        match target w with
        | (Raised e, w') =>
            if retried e then on_exception fuel' target w' else (Raised e, w')
        | done => done
        end
  end.

(** The body of [fetch]. *)
Definition fetch_once : io prices :=
  let! report_dict := _fetch_semopx_json 5 in
  _retrieve_market_results report_dict.

(** [fetch]: every call of the body sends at least the request for page
    1, so one call more than the queue is long is fuel enough. *)
Definition fetch : io prices :=
  fun w => on_exception (S (length (pending w))) fetch_once w.

(** [hourly], [daily], [weekly], [monthly], [yearly]: [areas] defaults to
    the empty list, and everything is handed to [fetch], which reads none
    of its arguments. *)
Definition hourly (end_date : pyval) (areas : option (list pyval)) (raw : bool)
  : io prices :=
  let areas := match areas with None => [] | Some areas => areas end in
  fetch.

Definition daily (end_date : pyval) (areas : option (list pyval)) : io prices :=
  let areas := match areas with None => [] | Some areas => areas end in
  fetch.

Definition weekly (end_date : pyval) (areas : option (list pyval)) : io prices :=
  let areas := match areas with None => [] | Some areas => areas end in
  fetch.

Definition monthly (end_date : pyval) (areas : option (list pyval)) : io prices :=
  let areas := match areas with None => [] | Some areas => areas end in
  fetch.

Definition yearly (end_date : pyval) (areas : option (list pyval)) : io prices :=
  let areas := match areas with None => [] | Some areas => areas end in
  fetch.

End Methods.

(** ** An instance of the date libraries

    The timestamps the API sends are ISO 8601 in UTC,
    [YYYY-MM-DDTHH:MM:SSZ].  This instance reads exactly those and knows
    the zone [UTC]; it serves to run the methods on concrete inputs. *)

Module UtcLib.

Record civil : Type := Civil {
  year : Z; month : Z; day : Z; hour : Z; minute : Z; second : Z
}.

Definition digit (c : ascii) : option Z :=
  let n := Z.of_nat (nat_of_ascii c) - 48 in
  if (0 <=? n) && (n <=? 9) then Some n else None.

Fixpoint number (acc : Z) (cs : list ascii) : option Z :=
  match cs with
  | [] => Some acc
  | c :: cs' =>
      match digit c with
      | Some d => number (10 * acc + d) cs'
      | None => None
      end
  end.

Definition is_char (c : ascii) (s : string) : bool := String.eqb (String c EmptyString) s.

Definition parse (s : string) : option civil :=
  match list_ascii_of_string s with
  | [y1; y2; y3; y4; p1; m1; m2; p2; d1; d2; t; h1; h2; c1; n1; n2; c2; s1; s2; z] =>
      if is_char p1 "-" && is_char p2 "-" && is_char t "T"
         && is_char c1 ":" && is_char c2 ":" && is_char z "Z"
      then
        match number 0 [y1; y2; y3; y4], number 0 [m1; m2], number 0 [d1; d2],
              number 0 [h1; h2], number 0 [n1; n2], number 0 [s1; s2] with
        | Some y, Some m, Some d, Some h, Some n, Some sec =>
            if (1 <=? m) && (m <=? 12) && (1 <=? d) && (d <=? 31)
               && (h <=? 23) && (n <=? 59) && (sec <=? 59)
            then Some (Civil y m d h n sec)
            else None
        | _, _, _, _, _, _ => None
        end
      else None
  | _ => None
  end.

(** Days from 1970-01-01 to a date of the proleptic Gregorian calendar. *)
Definition days_from_civil (y m d : Z) : Z :=
  let y := if m <=? 2 then y - 1 else y in
  let era := y / 400 in
  let yoe := y - era * 400 in
  let doy := (153 * (if 2 <? m then m - 3 else m + 9) + 2) / 5 + d - 1 in
  let doe := yoe * 365 + yoe / 4 - yoe / 100 + doy in
  era * 146097 + doe - 719468.

Definition epoch (c : civil) : Z :=
  days_from_civil (year c) (month c) (day c) * 86400
  + hour c * 3600 + minute c * 60 + second c.

Definition digit_char (d : Z) : ascii := ascii_of_nat (Z.to_nat (48 + d mod 10)).

Definition two (n : Z) : string :=
  String (digit_char (n / 10)) (String (digit_char n) EmptyString).

Definition format (c : civil) : string :=
  String.concat "" [two (year c / 100); two (year c); "/"; two (month c); "/"; two (day c);
                    " "; two (hour c); ":"; two (minute c); ":"; two (second c)].

#[export] Instance lib : DateLib := {|
  datetime := civil;
  parse_dt := parse;
  timestamp := epoch;
  all_timezones := ["UTC"];
  astimezone := fun dt _ => dt;
  strftime := format
|}.

End UtcLib.


(** ** Vocabulary of the statements *)

(** [totalPages] as a document reports it:
    [doc['pagination']['totalPages']]. *)
Definition total_pages_of (doc : pyval) : res pyval :=
  let* pagination := getitem_str doc "pagination" in
  getitem_str pagination "totalPages".

(** *** Pages of the documented shape *)

(** What an index page says: its items, each a [Date] and a
    [ResourceName], and the [totalPages] of its pagination block. *)
Record index_page : Type := IndexPage {
  page_items : list (string * pyval);
  page_total : Z
}.

Definition decode_item (item_rec : pyval) : option (string * pyval) :=
  match getitem_str item_rec "Date", getitem_str item_rec "ResourceName" with
  | Ok (PyStr d), Ok r => Some (d, r)
  | _, _ => None
  end.

Definition decode_page (doc : pyval) : option index_page :=
  match getitem_str doc "items", total_pages_of doc with
  | Ok (PyList item_recs), Ok (PyInt total) =>
      match mapM decode_item item_recs with
      | Some items => Some (IndexPage items total)
      | None => None
      end
  | _, _ => None
  end.

(** The grouping key of an item: the first 10 characters of its date. *)
Definition key_date (item : string * pyval) : string := str_take 10 (fst item).

Definition key_dates (pages : list index_page) : list string :=
  flat_map (fun pg => map key_date (page_items pg)) pages.

(** All the items of [pages], in order. *)
Definition all_items (pages : list index_page) : list (string * pyval) :=
  flat_map page_items pages.

(** What the item loop does to its state with an item of the documented
    shape: as [add_item], without the exceptions. *)
Definition walk_item (st : reports * option string) (item : string * pyval)
  : reports * option string :=
  let st1 :=
    if has_key (key_date item) (fst st) then st
    else (fst st ++ [(key_date item, Report (key_date item) [])], Some (key_date item)) in
  (append_resource (default (key_date item) (snd st1)) (snd item) (fst st1), snd st1).

(** The grouping asked of the walker: each item's resource is appended
    to the group of the item's date, created at first sight. *)
Definition add_to_group (groups : reports) (item : string * pyval) : reports :=
  if has_key (key_date item) groups
  then append_resource (key_date item) (snd item) groups
  else groups ++ [(key_date item, Report (key_date item) [snd item])].

Definition grouped (items : list (string * pyval)) : reports :=
  fold_left add_to_group items [].

(** Equal dates are adjacent in [keys], which follow the dates [prev]:
    every date is that of the item before it, or has not occurred. *)
Fixpoint dates_adjacent (prev keys : list string) : bool :=
  match keys with
  | [] => true
  | k :: keys' =>
      (match last prev with Some p => String.eqb k p | None => false end
       || negb (existsb (String.eqb k) prev))
      && dates_adjacent (prev ++ [k]) keys'
  end.

(** The number of distinct dates among the items seen. *)
Definition distinct (dates : list string) : nat :=
  size (list_to_set dates : gset string).

(** The stop condition after the [k]-th (counted from 1) of the pages
    [pages] that follow page number [page], the dates [seen] having been
    collected before them: [page >= total_pages], or more than [days]
    date groups. *)
Definition stop_from (days : Z) (page : Z) (seen : list string)
    (pages : list index_page) (k : nat) : bool :=
  match pages !! (k - 1)%nat with
  | Some pg =>
      (page_total pg <=? page + Z.of_nat k)
      || (days <? Z.of_nat (distinct (seen ++ key_dates (take k pages))))
  | None => false
  end.

(** The stop condition after page [k] of a walk that starts at page 1. *)
Definition stop_after (days : Z) (pages : list index_page) (k : nat) : bool :=
  stop_from days 0 [] pages k.

(** The walker's state agrees with the dates [seen]: the keys of
    [report_dict] are those dates, each once, and [report] is bound as
    soon as there is a key. *)
Definition walker_inv (st : reports * option string) (seen : list string) : Prop :=
  NoDup (map fst (fst st))
  /\ (forall k, k ∈ map fst (fst st) <-> k ∈ seen)
  /\ (fst st <> [] -> snd st <> None).

(** *** Merging, position by position *)

Section Updates.
Context {lib : DateLib}.
Variable self : AioPrices.

(** One update of [rec_dict]: the entry of [key_list] and the rate to
    store under it. *)
Definition update : Type := (Z * datetime) * spec_float.

(** The updates that a price list asks for: price [i] goes with entry
    [i] of [key_list] and is divided by 1000; a price beyond the end of
    [key_list] is an [IndexError]. *)
Fixpoint price_updates (key_list : list (Z * datetime)) (price_list : list pyval)
    {struct price_list} : res (list update) :=
  match price_list with
  | [] => Ok []
  | price :: price_list' =>
      match key_list with
      | [] => Raise IndexError
      | key :: key_list' =>
          let* rate := truediv_1000 price in
          let* updates := price_updates key_list' price_list' in
          Ok ((key, rate) :: updates)
      end
  end.

(** The updates that a row asks for: none when its area does not match,
    else those of its price list against its parsed timestamps. *)
Definition row_updates (data_set_list : pyval) : res (list update) :=
  let* head := getitem_int data_set_list 0 in
  let* area := getitem_int head 1 in
  let* found := contains (market_area self) area in
  if negb found then Ok [] else
  let* column := getitem_int data_set_list 2 in
  let* date_strs := py_iter column in
  let* key_list := res_map (_parse_semopx_time self) date_strs in
  let* column := getitem_int data_set_list 3 in
  let* price_list := py_iter column in
  price_updates key_list price_list.

(** What the merger does with the document fetched for a resource: the
    body of the resource loop after [_async_fetch]. *)
Definition merge_document (rec_dict : records) (resource_name doc : pyval) : res records :=
  if negb (truthy doc) then Ok rec_dict else
  let* context_prefix := _determine_context_prefix resource_name in
  match context_prefix with
  | None => Ok rec_dict
  | Some context_prefix =>
      let* rows := dict_get doc "rows" (PyList []) in
      let* data_sets := py_iter rows in
      res_fold (merge_row self context_prefix) rec_dict data_sets
  end.

(** What is left of [_retrieve_market_results] when the record
    dictionary is [rec_dict] and the resources [after] are still to be
    visited. *)
Definition finish_merge (rec_dict : records) (after : list pyval) : io prices :=
  let! merged := io_fold (merge_resource self) rec_dict after in
  let rec_dict := _finalize_records merged in
  io_ret (if decide (rec_dict = ∅) then Prices ∅ else Prices rec_dict).

(** [rec_dict[ts][field] = rate], on the record of [ts] or on a new
    one. *)
Definition store (context_prefix : string) (rec_dict : records) (u : update) : records :=
  let rec := default (data_rec self (fst u)) (rec_dict !! fst (fst u)) in
  <[fst (fst u) := <[rate_field context_prefix := PyFloat (snd u)]> rec]> rec_dict.

(** What [store] does to the record of the timestamp [t]. *)
Definition store_at (context_prefix : string) (t : Z) (o : option (gmap string pyval))
    (u : update) : option (gmap string pyval) :=
  if decide (fst (fst u) = t)
  then Some (<[rate_field context_prefix := PyFloat (snd u)]> (default (data_rec self (fst u)) o))
  else o.

(** The rate of the last update for the timestamp [t]. *)
Fixpoint last_rate (t : Z) (updates : list update) : option spec_float :=
  match updates with
  | [] => None
  | u :: updates' =>
      match last_rate t updates' with
      | Some rate => Some rate
      | None => if decide (fst (fst u) = t) then Some (snd u) else None
      end
  end.

End Updates.

(** The session fields, from the highest priority to the lowest. *)
Definition session_fields : list string :=
  ["ida3_kwh_rate"; "ida2_kwh_rate"; "ida1_kwh_rate"; "da_kwh_rate"].

(** The value of the first of [fields] that [rec] has. *)
Definition first_present (fields : list string) (rec : gmap string pyval) : option pyval :=
  head (omap (fun field => rec !! field) fields).

(** No record has a final rate yet. *)
Definition not_finalized (rec_dict : gmap Z (gmap string pyval)) : Prop :=
  forall t rec, rec_dict !! t = Some rec -> rec !! "final_kwh_rate" = None.

(** The resources of [report_dict] in the order the merger visits them. *)
Definition all_resources (report_dict : reports) : list pyval :=
  flat_map (fun kv => resources (snd kv)) report_dict.

(** [1.0]. *)
Definition float_one : spec_float := S754_finite false 4503599627370496 (-52).

(** A response without content: status 204, an empty body, or a body
    that is false as a Python value. *)
Definition no_content (resp : response) : bool :=
  match resp with
  | Status204 | EmptyBody => true
  | JsonBody doc => negb (truthy doc)
  | ClientFailure => false
  end.

(** *** What the walker and the merger keep *)

(** A group of [report_dict] as the walker leaves it: its [date] is its
    key, the key has at most 10 characters, and it holds a resource. *)
Definition group_ok (kv : string * report) : Prop :=
  date (snd kv) = fst kv
  /\ (String.length (fst kv) <= 10)%nat
  /\ resources (snd kv) <> [].

(** The state of the item loop between two items: the keys are distinct,
    every group is as above, and [report] is bound to a group of the
    dictionary as soon as there is one. *)
Definition groups_inv (st : reports * option string) : Prop :=
  NoDup (map fst (fst st))
  /\ Forall group_ok (fst st)
  /\ match snd st with
     | Some k => k ∈ map fst (fst st)
     | None => fst st = []
     end.

(** The exceptions the statements of the walker raise themselves, as
    opposed to those of the request it awaits. *)
Definition walker_exn (e : exn) : bool :=
  match e with
  | KeyError | TypeError => true
  | _ => false
  end.

(** A request that is answered: [_async_fetch] returns, with [None] or
    with the decoded body. *)
Definition answered (resp : response) : bool :=
  match resp with
  | Status204 | JsonBody _ | EmptyBody => true
  | ClientFailure => false
  end.

(** A row of another market area: its descriptor [row[0][1]] does not
    contain [area]. *)
Definition other_area_row (area : string) (data_set_list : pyval) : bool :=
  match getitem_int data_set_list 0 with
  | Ok head =>
      match getitem_int head 1 with
      | Ok descriptor =>
          match contains area descriptor with
          | Ok found => negb found
          | Raise _ => false
          end
      | Raise _ => false
      end
  | Raise _ => false
  end.

(** A record for the timestamp [t]: the four fields set at creation, a
    float under every session field it has, and at least one session
    field. *)
Definition record_base (self : AioPrices) (t : Z) (rec : gmap string pyval) : Prop :=
  rec !! "ts" = Some (PyInt t)
  /\ rec !! "market_area" = Some (PyStr (market_area self))
  /\ rec !! "currency" = Some (PyStr (currency self))
  /\ (exists s, rec !! "datetime" = Some (PyStr s))
  /\ (forall field v, field ∈ session_fields -> rec !! field = Some v ->
        exists rate, v = PyFloat rate).

Definition record_ok (self : AioPrices) (t : Z) (rec : gmap string pyval) : Prop :=
  record_base self t rec
  /\ (exists field, field ∈ session_fields /\ is_Some (rec !! field)).

(** Every record of [rec_dict] is as above. *)
Definition records_ok (self : AioPrices) (rec_dict : gmap Z (gmap string pyval)) : Prop :=
  forall t rec, rec_dict !! t = Some rec -> record_ok self t rec.

(** ** Example documents *)

(** An item of the index and a page of it, as the API sends them. *)
Definition index_item (date resource_name : string) : pyval :=
  PyDict [("Date", PyStr date); ("ResourceName", PyStr resource_name)].

Definition index_doc (item_recs : list pyval) (total_pages : Z) : pyval :=
  PyDict [("items", PyList item_recs);
          ("pagination", PyDict [("totalPages", PyInt total_pages)])].

(** A detail document with the rows [rows]. *)
Definition rows_doc (rows : list pyval) : pyval := PyDict [("rows", PyList rows)].

(** The row of the day-ahead scenario, [area] being its element 0:
    one timestamp, one price of 1000. *)
Definition da_row (area unused : pyval) : pyval :=
  PyList [area; unused; PyList [PyStr "2024-01-01T00:00:00Z"]; PyList [PyInt 1000]].

(** A client for the market area ROI that displays UTC. *)
Definition utc_prices : AioPrices :=
  {| currency := "euro"; market_area := "ROI"; timezone := "UTC" |}.

(** A client whose timezone no library knows. *)
Definition lost_prices : AioPrices :=
  {| currency := "euro"; market_area := "ROI"; timezone := "Mars/Olympus" |}.

(** The same row with the area at [data_set_list[0][1]], and a document
    of it; a later intraday document for the same timestamp. *)
Definition da_document : pyval :=
  rows_doc [da_row (PyList [PyStr "DA"; PyStr "ROI-desc"]) PyNone].

Definition ida2_document : pyval :=
  rows_doc [PyList [PyList [PyStr "IDA2"; PyStr "ROI-desc"]; PyNone;
                    PyList [PyStr "2024-01-01T00:00:00Z"]; PyList [PyInt 1200]]].

(** Rows whose two columns differ in length. *)
Definition long_prices_row : pyval :=
  PyList [PyList [PyStr "DA"; PyStr "ROI-desc"]; PyNone;
          PyList [PyStr "2024-01-01T00:00:00Z"]; PyList [PyInt 1000; PyInt 1200]].

Definition short_prices_row : pyval :=
  PyList [PyList [PyStr "DA"; PyStr "ROI-desc"]; PyNone;
          PyList [PyStr "2024-01-01T00:00:00Z"; PyStr "2024-01-01T01:00:00Z"];
          PyList [PyInt 1000]].

(** 2024-01-01T00:00:00Z as [UtcLib] reads it, and its epoch. *)
Definition new_year : @datetime UtcLib.lib := UtcLib.Civil 2024 1 1 0 0 0.
Definition new_year_ts : Z := 1704067200.

(** [1.2]. *)
Definition float_1_2 : spec_float := S754_finite false 5404319552844595 (-52).

(** The record of the day-ahead document, before finalization, and the
    record of both documents, finalized. *)
Definition da_record : gmap string pyval :=
  <["da_kwh_rate" := PyFloat float_one]>
    (data_rec (lib := UtcLib.lib) utc_prices (new_year_ts, new_year)).

Definition two_session_record : gmap string pyval :=
  <["final_kwh_rate" := PyFloat float_1_2]>
    (<["ida2_kwh_rate" := PyFloat float_1_2]> da_record).

(** A page whose items are not grouped by date: the third is of the
    first item's day. *)
Definition interleaved_page : pyval :=
  index_doc [index_item "2024-01-02T12:00:00" "SEM-DA-2";
             index_item "2024-01-01T12:00:00" "SEM-DA-1";
             index_item "2024-01-02T17:30:00" "SEM-IDA1-2"] 1.

(** An index that reports no page at all. *)
Definition empty_index : pyval := index_doc [] 0.

(** Two pages of three items over three days, [totalPages = 2]. *)
Definition two_pages : list pyval :=
  [index_doc [index_item "2024-01-03T12:00:00" "a"; index_item "2024-01-03T11:00:00" "b";
              index_item "2024-01-02T12:00:00" "c"] 2;
   index_doc [index_item "2024-01-02T11:00:00" "d"; index_item "2024-01-01T12:00:00" "e";
              index_item "2024-01-01T11:00:00" "f"] 2].

Definition two_pages_decoded : list index_page :=
  [IndexPage [("2024-01-03T12:00:00", PyStr "a"); ("2024-01-03T11:00:00", PyStr "b");
              ("2024-01-02T12:00:00", PyStr "c")] 2;
   IndexPage [("2024-01-02T11:00:00", PyStr "d"); ("2024-01-01T12:00:00", PyStr "e");
              ("2024-01-01T11:00:00", PyStr "f")] 2].

(** * Properties of the index walker *)

(** [case_res] splits on the result the goal or a hypothesis matches on. *)
Ltac case_res :=
  match goal with
  | |- context [res_bind ?c _] =>
      let E := fresh "E" in destruct c eqn:E; cbn [res_bind]
  | |- context [io_lift ?c _] =>
      let E := fresh "E" in destruct c eqn:E; cbn [io_lift]
  | H : context [res_bind ?c _] |- _ =>
      let E := fresh "E" in destruct c eqn:E; cbn [res_bind] in H
  | H : context [io_lift ?c _] |- _ =>
      let E := fresh "E" in destruct c eqn:E; cbn [io_lift] in H
  end.

Section Walker.

Lemma async_fetch_issued req w :
  issued (snd (_async_fetch req w)) = issued w ++ [req].
Proof. unfold _async_fetch. destruct (pending w) as [|[] ?]; reflexivity. Qed.

(** Whatever a turn of the loop ends in, it has sent one request, for
    its page. *)
Lemma walk_page_issued days page st w :
  issued (snd (walk_page days page st w)) = issued w ++ [GetIndex page].
Proof.
  unfold walk_page, io_bind, _async_fetch, io_ret.
  destruct (pending w) as [|[] ?]; cbn; try reflexivity;
    repeat (case_res; try reflexivity).
Qed.

(** A turn that completes has read a document off the queue and compared
    the page with the [totalPages] it reports. *)
Lemma walk_page_returned days page st w stop st' w' :
  walk_page days page st w = (Returned (stop, st'), w') ->
  exists doc rest pagination total_pages last,
    pending w = JsonBody doc :: rest
    /\ w' = World rest (issued w ++ [GetIndex page])
    /\ getitem_str doc "pagination" = Ok pagination
    /\ getitem_str pagination "totalPages" = Ok total_pages
    /\ int_ge page total_pages = Ok last
    /\ stop = last || (days <? Z.of_nat (length (fst st'))).
Proof.
  unfold walk_page, io_bind, _async_fetch, io_ret.
  destruct (pending w) as [|[ | doc | | ] rest]; cbn; try discriminate;
    intros H; repeat (case_res; try discriminate).
  injection H as <- <- <-.
  do 5 eexists. repeat split; try eassumption; reflexivity.
Qed.

(** A turn that does not starve has taken one response off the queue; a
    turn that starves found the queue empty. *)
Lemma walk_page_pending days page st w :
  match fst (walk_page days page st w) with
  | Starved => pending w = []
  | _ => exists resp, pending w = resp :: pending (snd (walk_page days page st w))
  end.
Proof.
  unfold walk_page, io_bind, _async_fetch, io_ret.
  destruct (pending w) as [|[] rest]; cbn; try reflexivity; try (by eexists);
    repeat (case_res; try (by eexists)).
Qed.

(** The fuel of [_fetch_semopx_json] is enough: any amount above the
    length of the queue gives the same run. *)
Lemma walk_fuel_enough days :
  forall fuel fuel' page st w,
  (length (pending w) < fuel)%nat ->
  (length (pending w) < fuel')%nat ->
  walk fuel days page st w = walk fuel' days page st w.
Proof.
  induction fuel as [|fuel IH]; intros fuel' page st w Hf Hf'; [lia |].
  destruct fuel' as [|fuel']; [lia |].
  cbn [walk]. unfold io_bind.
  pose proof (walk_page_pending days (page + 1) st w) as Hp.
  destruct (walk_page days (page + 1) st w) as [[[stop st'] | e |] w1]; try reflexivity.
  cbn [fst snd] in Hp. destruct Hp as (resp & Hp).
  destruct stop; [reflexivity |].
  apply IH; rewrite Hp in *; cbn [length] in *; lia.
Qed.

(** A walk that does not starve has used up at least one response. *)
Lemma walk_consumes days :
  forall fuel page st w,
  match fst (walk fuel days page st w) with
  | Starved => True
  | _ => (length (pending (snd (walk fuel days page st w))) < length (pending w))%nat
  end.
Proof.
  induction fuel as [|fuel IH]; intros page st w; [exact I |].
  cbn [walk]. unfold io_bind.
  pose proof (walk_page_pending days (page + 1) st w) as Hp.
  destruct (walk_page days (page + 1) st w) as [[[stop st'] | e |] w1];
    cbn [fst snd] in *; try exact I.
  - destruct Hp as (resp & Hp). destruct stop.
    + unfold io_ret. cbn [fst snd]. rewrite Hp. cbn [length]. lia.
    + specialize (IH (page + 1) st' w1).
      destruct (walk fuel days (page + 1) st' w1) as [[report_dict | e |] w2];
        cbn [fst snd] in *; try exact I; rewrite Hp; cbn [length]; lia.
  - destruct Hp as (resp & Hp). rewrite Hp. cbn [length]. lia.
Qed.

(** The requests of a run of the loop are those for the pages after
    [page], in order, and each but the last follows a document for which
    [page >= total_pages] was false. *)
Lemma walk_requests fuel days :
  forall page st w,
  exists m : nat,
    issued (snd (walk fuel days page st w))
      = issued w ++ map GetIndex (seqZ (page + 1) (Z.of_nat m))
    /\ (fuel <> O -> m <> O)
    /\ forall k : nat, (S k < m)%nat ->
         exists doc total_pages,
           pending w !! k = Some (JsonBody doc)
           /\ total_pages_of doc = Ok total_pages
           /\ int_ge (page + 1 + Z.of_nat k) total_pages = Ok false.
Proof.
  induction fuel as [|fuel IH]; intros page st w.
  - exists O. cbn. rewrite app_nil_r. repeat split; [congruence | lia].
  - cbn [walk]. unfold io_bind.
    pose proof (walk_page_issued days (page + 1) st w) as Hlog.
    destruct (walk_page days (page + 1) st w) as [[[stop st'] | e |] w1] eqn:E;
      cbn [snd] in Hlog.
    + apply walk_page_returned in E
        as (doc & rest & pagination & total_pages & last & Hp & -> & Hpg & Htp & Hge & ->).
      destruct (last || _) eqn:Hstop.
      * exists 1%nat. unfold io_ret. cbn [snd issued].
        repeat split; [congruence | lia].
      * apply orb_false_iff in Hstop as [-> _].
        destruct (IH (page + 1) st' (World rest (issued w ++ [GetIndex (page + 1)])))
          as (m & Hm & _ & Hk).
        exists (S m). rewrite Hm. cbn [issued pending] in *.
        repeat split; [| congruence |].
        -- rewrite Nat2Z.inj_succ, (seqZ_cons (page + 1)) by lia.
           rewrite Z.pred_succ. cbn [map]. rewrite <- app_assoc. reflexivity.
        -- intros [|k] Hlt.
           ++ exists doc, total_pages. rewrite Hp. unfold total_pages_of.
              rewrite Hpg. cbn. rewrite Htp, Z.add_0_r. auto.
           ++ destruct (Hk k ltac:(lia)) as (doc' & tp' & H1 & H2 & H3).
              exists doc', tp'. rewrite Hp. cbn. repeat split; try assumption.
              rewrite <- H3. f_equal. lia.
    + exists 1%nat. cbn [snd]. rewrite Hlog. repeat split; [congruence | lia].
    + exists 1%nat. cbn [snd]. rewrite Hlog. repeat split; [congruence | lia].
Qed.

Lemma has_key_spec k d : has_key k d = true <-> k ∈ map fst d.
Proof.
  unfold has_key. rewrite existsb_exists, list_elem_of_fmap. split.
  - intros (kv & Hin & Heq). apply String.eqb_eq in Heq.
    exists kv. split; [assumption | by apply list_elem_of_In].
  - intros (kv & -> & Hin). exists kv.
    split; [by apply list_elem_of_In | apply String.eqb_refl].
Qed.

Lemma append_resource_keys k r d : map fst (append_resource k r d) = map fst d.
Proof.
  unfold append_resource. rewrite map_map. apply map_ext.
  intros kv. destruct (String.eqb k (fst kv)); reflexivity.
Qed.

Lemma walker_inv_size st seen :
  walker_inv st seen -> length (fst st) = distinct seen.
Proof.
  intros (Hnd & Hkeys & _). unfold distinct.
  rewrite <- (length_map fst (fst st)).
  rewrite <- (size_list_to_set (C := gset string)) by assumption.
  f_equal. apply set_eq. intros k. rewrite !elem_of_list_to_set. apply Hkeys.
Qed.

Lemma add_item_decoded st seen item_rec item :
  decode_item item_rec = Some item ->
  walker_inv st seen ->
  add_item st item_rec = Ok (walk_item st item)
  /\ walker_inv (walk_item st item) (seen ++ [key_date item]).
Proof.
  unfold decode_item. intros Hdec (Hnd & Hkeys & Hcur).
  destruct (getitem_str item_rec "Date") as [[| | | | d | |] |] eqn:Hd; try discriminate.
  destruct (getitem_str item_rec "ResourceName") as [r |] eqn:Hr; try discriminate.
  injection Hdec as <-. destruct st as [report_dict report]. cbn [fst snd] in *.
  unfold add_item, walk_item. rewrite Hd. cbn [res_bind slice_to hashable].
  unfold key_date. cbn [fst snd].
  set (kd := str_take 10 d).
  destruct (has_key kd report_dict) eqn:Hk; cbn [negb fst snd default].
  - apply has_key_spec in Hk.
    destruct report as [c |].
    2:{ exfalso. apply Hcur; [| reflexivity]. intros ->. by apply elem_of_nil in Hk. }
    rewrite Hr. cbn [res_bind default]. split; [reflexivity |].
    unfold walker_inv. cbn [fst snd]. rewrite append_resource_keys.
    repeat split; try assumption; try congruence.
    + intros H. apply elem_of_app. left. by apply Hkeys.
    + intros [H | H%list_elem_of_singleton]%elem_of_app; [by apply Hkeys | by subst].
  - assert (kd ∉ map fst report_dict) as Hnk.
    { intros H%has_key_spec. congruence. }
    rewrite Hr. cbn [res_bind]. split; [reflexivity |].
    unfold walker_inv. cbn [fst snd]. rewrite append_resource_keys, map_app. cbn [map fst].
    repeat split; try congruence.
    + apply NoDup_app. repeat split; try assumption.
      * intros x Hx ->%list_elem_of_singleton. contradiction.
      * apply NoDup_singleton.
    + intros [H | H]%elem_of_app; apply elem_of_app; [left; by apply Hkeys | by right].
    + intros [H | H]%elem_of_app; apply elem_of_app; [left; by apply Hkeys | by right].
Qed.

Lemma add_items_decoded item_recs :
  forall items st seen,
  mapM decode_item item_recs = Some items ->
  walker_inv st seen ->
  res_fold add_item st item_recs = Ok (fold_left walk_item items st)
  /\ walker_inv (fold_left walk_item items st) (seen ++ map key_date items).
Proof.
  induction item_recs as [|item_rec item_recs IH]; intros items st seen Hdec Hinv.
  - injection Hdec as <-. cbn. rewrite app_nil_r. auto.
  - cbn in Hdec. destruct (decode_item item_rec) as [item |] eqn:Hi; [| discriminate].
    cbn in Hdec. destruct (mapM decode_item item_recs) as [items' |] eqn:Hr; [| discriminate].
    injection Hdec as <-.
    destruct (add_item_decoded st seen item_rec item Hi Hinv) as (H1 & Hinv1).
    destruct (IH items' (walk_item st item) _ eq_refl Hinv1) as (H2 & Hinv2).
    cbn [res_fold fold_left]. rewrite H1. cbn [res_bind]. split; [assumption |].
    cbn [map]. rewrite <- app_assoc in Hinv2. exact Hinv2.
Qed.

Lemma walk_page_decoded days page st seen doc pg rest log :
  decode_page doc = Some pg ->
  walker_inv st seen ->
  let seen' := seen ++ map key_date (page_items pg) in
  let st' := fold_left walk_item (page_items pg) st in
  walk_page days page st (World (JsonBody doc :: rest) log)
    = (Returned ((page_total pg <=? page) || (days <? Z.of_nat (distinct seen')), st'),
       World rest (log ++ [GetIndex page]))
  /\ walker_inv st' seen'.
Proof.
  unfold decode_page, total_pages_of. intros Hdec Hinv.
  destruct (getitem_str doc "items") as [[| | | | | item_recs |] |] eqn:Hitems;
    try discriminate.
  destruct (getitem_str doc "pagination") as [pagination |] eqn:Hpg;
    cbn [res_bind] in Hdec; try discriminate.
  destruct (getitem_str pagination "totalPages") as [[| | total | | | |] |] eqn:Htp;
    try discriminate.
  destruct (mapM decode_item item_recs) as [items |] eqn:Hits; [| discriminate].
  injection Hdec as <-. cbn [page_items page_total] in *.
  set (seen' := seen ++ map key_date items).
  set (st' := fold_left walk_item items st).
  destruct (add_items_decoded item_recs items st seen Hits Hinv) as (Hfold & Hinv').
  fold st' in Hfold, Hinv'. fold seen' in Hinv'.
  split; [| exact Hinv'].
  unfold walk_page, io_bind, _async_fetch, io_ret. cbn [pending issued].
  rewrite Hitems. cbn [io_lift py_iter]. rewrite Hfold. cbn [io_lift].
  rewrite Hpg. cbn [io_lift]. rewrite Htp. cbn [io_lift int_ge].
  rewrite (walker_inv_size st' seen' Hinv'). reflexivity.
Qed.

Lemma stop_from_first days page seen pg pages :
  stop_from days page seen (pg :: pages) 1
  = (page_total pg <=? page + 1)
    || (days <? Z.of_nat (distinct (seen ++ map key_date (page_items pg)))).
Proof.
  unfold stop_from, key_dates. cbn. rewrite take_0. cbn. by rewrite app_nil_r.
Qed.

Lemma stop_from_later days page seen pg pages k :
  stop_from days page seen (pg :: pages) (S (S k))
  = stop_from days (page + 1) (seen ++ map key_date (page_items pg)) pages (S k).
Proof.
  unfold stop_from, key_dates. cbn [Nat.sub lookup list_lookup take flat_map].
  rewrite Nat.sub_0_r, <- app_assoc.
  replace (page + 1 + Z.of_nat (S k)) with (page + Z.of_nat (S (S k))) by lia.
  reflexivity.
Qed.

(** The loop on pages of the documented shape: it returns after the
    first page at which the stop condition holds, having requested every
    page up to that one and none after it. *)
Lemma walk_decoded days :
  forall docs pages (n fuel : nat) page st seen rest log,
  Forall2 (fun doc pg => decode_page doc = Some pg) docs pages ->
  walker_inv st seen ->
  (1 <= n <= length pages)%nat ->
  (n <= fuel)%nat ->
  stop_from days page seen pages n = true ->
  (forall k, (1 <= k < n)%nat -> stop_from days page seen pages k = false) ->
  walk fuel days page st (World (map JsonBody docs ++ rest) log)
    = (Returned (fst (fold_left walk_item (all_items (take n pages)) st)),
       World (map JsonBody (drop n docs) ++ rest)
             (log ++ map GetIndex (seqZ (page + 1) (Z.of_nat n))))
  /\ walker_inv (fold_left walk_item (all_items (take n pages)) st)
                (seen ++ key_dates (take n pages)).
Proof.
  induction docs as [|doc docs IH];
    intros pages n fuel page st seen rest log Hdec Hinv Hn Hfuel Hstop Hfirst.
  - apply Forall2_nil_inv_l in Hdec as ->. cbn in Hn. lia.
  - apply Forall2_cons_inv_l in Hdec as (pg & pages' & Hpg & Hdec & ->).
    destruct fuel as [|fuel]; [lia |].
    destruct (walk_page_decoded days (page + 1) st seen doc pg
                (map JsonBody docs ++ rest) log Hpg Hinv) as (Hturn & Hinv').
    cbn [walk map app]. unfold io_bind. rewrite Hturn.
    destruct n as [|[|n]]; [lia | |].
    + rewrite stop_from_first in Hstop. rewrite Hstop. unfold io_ret.
      unfold all_items, key_dates. cbn [take flat_map]. rewrite take_0. cbn [flat_map].
      rewrite !app_nil_r. cbn [drop]. rewrite drop_0. split; [| exact Hinv'].
      rewrite (seqZ_cons (page + 1)) by lia. rewrite seqZ_nil by lia. reflexivity.
    + pose proof (Hfirst 1%nat ltac:(lia)) as H1. rewrite stop_from_first in H1.
      rewrite H1. rewrite stop_from_later in Hstop.
      destruct (IH pages' (S n) fuel (page + 1) (fold_left walk_item (page_items pg) st)
                  _ rest (log ++ [GetIndex (page + 1)]) Hdec Hinv') as (Hrun & Hinv'').
      * cbn in Hn. lia.
      * lia.
      * exact Hstop.
      * intros k Hk. destruct k as [|k]; [lia |].
        rewrite <- stop_from_later. apply Hfirst. lia.
      * rewrite Hrun. unfold all_items, key_dates in *. cbn [take flat_map].
        rewrite fold_left_app. split.
        -- cbn [drop]. f_equal. f_equal. rewrite <- app_assoc. f_equal.
           rewrite (seqZ_cons (page + 1) (Z.of_nat (S (S n)))) by lia.
           cbn [map app]. do 2 f_equal. f_equal; lia.
        -- rewrite app_assoc. exact Hinv''.
Qed.

(** On pages none of which meets the stop condition the loop asks for
    the page after the last and is left waiting for it. *)
Lemma walk_never_stops days :
  forall docs pages (fuel : nat) page st seen log,
  Forall2 (fun doc pg => decode_page doc = Some pg) docs pages ->
  walker_inv st seen ->
  (length pages < fuel)%nat ->
  (forall k, (1 <= k <= length pages)%nat -> stop_from days page seen pages k = false) ->
  walk fuel days page st (World (map JsonBody docs) log)
  = (Starved,
     World [] (log ++ map GetIndex (seqZ (page + 1) (Z.of_nat (S (length pages)))))).
Proof.
  induction docs as [|doc docs IH];
    intros pages fuel page st seen log Hdec Hinv Hfuel Hnever.
  - apply Forall2_nil_inv_l in Hdec as ->.
    destruct fuel as [|fuel]; [cbn in Hfuel; lia |].
    cbn [length]. rewrite (seqZ_cons (page + 1)) by lia. rewrite seqZ_nil by lia.
    reflexivity.
  - apply Forall2_cons_inv_l in Hdec as (pg & pages' & Hpg & Hdec & ->).
    destruct fuel as [|fuel]; [lia |].
    destruct (walk_page_decoded days (page + 1) st seen doc pg
                (map JsonBody docs) log Hpg Hinv) as (Hturn & Hinv').
    cbn [walk map]. unfold io_bind. rewrite Hturn.
    pose proof (Hnever 1%nat ltac:(cbn; lia)) as H1. rewrite stop_from_first in H1.
    rewrite H1.
    rewrite (IH pages' fuel (page + 1) _ _ (log ++ [GetIndex (page + 1)]) Hdec Hinv').
    + f_equal. f_equal. rewrite <- app_assoc. f_equal.
      rewrite (seqZ_cons (page + 1) (Z.of_nat (S (length (pg :: pages'))))) by lia.
      cbn [map app length]. do 2 f_equal. f_equal; lia.
    + cbn in Hfuel. lia.
    + intros k Hk. destruct k as [|k]; [lia |].
      rewrite <- stop_from_later. apply Hnever. cbn. lia.
Qed.

Lemma walker_inv_initial : walker_inv ([], None) [].
Proof.
  unfold walker_inv. cbn. repeat split; try tauto. apply NoDup_nil_2.
Qed.

(** C1 (the code departs from it). On [interleaved_page] the resource of
    the third item, dated 2024-01-02, is appended to the group of
    2024-01-01: [report] still names the group created last, because the
    branch for a date already in [report_dict] does not rebind it. *)
Theorem resource_lands_in_last_created_group :
  _fetch_semopx_json 5 (World [JsonBody interleaved_page] [])
  = (Returned
       [("2024-01-02", Report "2024-01-02" [PyStr "SEM-DA-2"]);
        ("2024-01-01", Report "2024-01-01" [PyStr "SEM-DA-1"; PyStr "SEM-IDA1-2"])],
     World [] [GetIndex 1])
  /\ grouped [("2024-01-02T12:00:00", PyStr "SEM-DA-2");
              ("2024-01-01T12:00:00", PyStr "SEM-DA-1");
              ("2024-01-02T17:30:00", PyStr "SEM-IDA1-2")]
     = [("2024-01-02", Report "2024-01-02" [PyStr "SEM-DA-2"; PyStr "SEM-IDA1-2"]);
        ("2024-01-01", Report "2024-01-01" [PyStr "SEM-DA-1"])].
Proof. split; reflexivity. Qed.

(** C4. For every sequence of index pages and every [days], the walker
    stops requesting pages at the first page after which
    [page >= total_pages] holds or the number of distinct date groups
    collected so far exceeds [days], and not before: if [n] is the first
    page at which [stop_after] holds, the walker returns having requested
    exactly the pages 1 to [n], and the responses after the [n]-th are
    left on the queue.  The groups it returns are as many as the distinct
    dates of those [n] pages. *)
Theorem walker_stops_at_first_stop_page days docs pages rest log (n : nat) :
  Forall2 (fun doc pg => decode_page doc = Some pg) docs pages ->
  (1 <= n <= length pages)%nat ->
  stop_after days pages n = true ->
  (forall k, (1 <= k < n)%nat -> stop_after days pages k = false) ->
  exists report_dict,
    _fetch_semopx_json days (World (map JsonBody docs ++ rest) log)
    = (Returned report_dict,
       World (map JsonBody (drop n docs) ++ rest)
             (log ++ map GetIndex (seqZ 1 (Z.of_nat n))))
    /\ length report_dict = distinct (key_dates (take n pages)).
Proof.
  intros Hdec Hn Hstop Hfirst. unfold _fetch_semopx_json. cbn [pending].
  destruct (walk_decoded days docs pages n
              (S (length (map JsonBody docs ++ rest))) 0 ([], None) [] rest log
              Hdec walker_inv_initial Hn) as (Hrun & Hinv).
  - rewrite length_app, length_map. apply Forall2_length in Hdec. lia.
  - exact Hstop.
  - exact Hfirst.
  - eexists. split; [exact Hrun |].
    apply walker_inv_size in Hinv. exact Hinv.
Qed.

(** The walk over [two_pages] with [days = 5] stops after page 2. *)
Lemma walker_stops_at_first_stop_page_witness :
  exists report_dict,
    _fetch_semopx_json 5 (World (map JsonBody two_pages ++ []) [])
    = (Returned report_dict,
       World (map JsonBody (drop 2 two_pages) ++ [])
             ([] ++ map GetIndex (seqZ 1 (Z.of_nat 2))))
    /\ length report_dict = distinct (key_dates (take 2 two_pages_decoded)).
Proof.
  apply (walker_stops_at_first_stop_page 5 two_pages two_pages_decoded [] [] 2).
  - repeat constructor.
  - cbn. lia.
  - vm_compute. reflexivity.
  - intros k Hk. assert (k = 1%nat) as -> by lia. vm_compute. reflexivity.
Defined.

(** *** Grouping when equal dates are adjacent *)

Lemma append_resource_absent k r d :
  k ∉ map fst d -> append_resource k r d = d.
Proof.
  induction d as [|kv d IH]; intros Hk; [reflexivity |].
  cbn [append_resource map] in *. apply not_elem_of_cons in Hk as [Hne Hk].
  destruct (String.eqb_spec k (fst kv)) as [-> | _]; [contradiction |].
  f_equal. by apply IH.
Qed.

Lemma append_resource_new k r d :
  k ∉ map fst d ->
  append_resource k r (d ++ [(k, Report k [])]) = d ++ [(k, Report k [r])].
Proof.
  intros Hk. unfold append_resource. rewrite map_app.
  fold (append_resource k r d). rewrite (append_resource_absent k r d Hk).
  cbn [map fst snd date resources app]. by rewrite String.eqb_refl.
Qed.

Lemma key_dates_items pages : key_dates pages = map key_date (all_items pages).
Proof.
  unfold key_dates, all_items. induction pages as [|pg pages IH]; [reflexivity |].
  cbn [flat_map]. by rewrite map_app, IH.
Qed.

(** While every date is that of the item before it or a new one, the
    variable [report] names the group of the current date, and the item
    loop groups as asked. *)
Lemma walk_items_grouped items :
  forall report_dict prev,
  (forall k, k ∈ map fst report_dict <-> k ∈ prev) ->
  dates_adjacent prev (map key_date items) = true ->
  fst (fold_left walk_item items (report_dict, last prev))
  = fold_left add_to_group items report_dict.
Proof.
  induction items as [|item items IH]; intros report_dict prev Hkeys Hadj; [reflexivity |].
  cbn [map dates_adjacent] in Hadj. apply andb_prop in Hadj as [Hhere Hadj].
  cbn [fold_left]. unfold walk_item at 2, add_to_group at 2. cbn [fst snd].
  destruct (has_key (key_date item) report_dict) eqn:Hk; cbn [fst snd].
  - assert (last prev = Some (key_date item)) as Hlast.
    { apply has_key_spec, Hkeys in Hk.
      apply orb_prop in Hhere as [Hhere | Hhere].
      - destruct (last prev) as [p |]; [| discriminate].
        by apply String.eqb_eq in Hhere as ->.
      - apply negb_true_iff in Hhere. exfalso.
        apply not_true_iff_false in Hhere. apply Hhere, existsb_exists.
        exists (key_date item). split; [by apply list_elem_of_In | apply String.eqb_refl]. }
    rewrite Hlast. cbn [default]. rewrite <- (last_snoc (key_date item) prev).
    apply IH; [| exact Hadj].
    intros k. rewrite append_resource_keys, elem_of_app, list_elem_of_singleton.
    rewrite Hkeys. split; [tauto |]. intros [H | ->]; [assumption |].
    by apply Hkeys, has_key_spec.
  - assert (key_date item ∉ map fst report_dict) as Hnk.
    { intros H%has_key_spec. congruence. }
    cbn [default]. rewrite append_resource_new by assumption.
    rewrite <- (last_snoc (key_date item) prev).
    apply IH; [| exact Hadj].
    intros k. rewrite map_app, !elem_of_app, Hkeys. reflexivity.
Qed.

(** X14. On pages of the documented shape whose equal dates are adjacent
    (the index is requested sorted by date), the walker returns the
    grouping by date: every resource in the group of the first 10
    characters of its item's date, groups in order of first sight,
    resources in order of arrival. *)
Lemma walker_groups_adjacent_dates days docs pages rest log (n : nat) :
  Forall2 (fun doc pg => decode_page doc = Some pg) docs pages ->
  (1 <= n <= length pages)%nat ->
  stop_after days pages n = true ->
  (forall k, (1 <= k < n)%nat -> stop_after days pages k = false) ->
  dates_adjacent [] (key_dates (take n pages)) = true ->
  fst (_fetch_semopx_json days (World (map JsonBody docs ++ rest) log))
  = Returned (grouped (all_items (take n pages))).
Proof.
  intros Hdec Hn Hstop Hfirst Hadj. unfold _fetch_semopx_json. cbn [pending].
  destruct (walk_decoded days docs pages n
              (S (length (map JsonBody docs ++ rest))) 0 ([], None) [] rest log
              Hdec walker_inv_initial Hn) as (Hrun & _).
  - rewrite length_app, length_map. apply Forall2_length in Hdec. lia.
  - exact Hstop.
  - exact Hfirst.
  - rewrite Hrun. cbn [fst]. f_equal. rewrite key_dates_items in Hadj.
    apply (walk_items_grouped _ [] []); [| exact Hadj]. reflexivity.
Qed.

(** C9, as the code has it. The request for page 1 is always sent; every
    later request is for a page [p] such that [p - 1 >= total_pages] was
    false for the [totalPages] reported by the response to page [p - 1],
    so [p] is at most that value when it is an integer.  Hence when every
    response reports the same [totalPages = T], no request is for a page
    greater than [max 1 T]. *)
Theorem index_requests_bounded_by_reported_total days w :
  exists m : nat,
    (1 <= m)%nat
    /\ issued (snd (_fetch_semopx_json days w))
       = issued w ++ map GetIndex (seqZ 1 (Z.of_nat m))
    /\ (forall p, 2 <= p <= Z.of_nat m ->
          exists doc total_pages,
            pending w !! Z.to_nat (p - 2) = Some (JsonBody doc)
            /\ total_pages_of doc = Ok total_pages
            /\ int_ge (p - 1) total_pages = Ok false
            /\ forall t, total_pages = PyInt t -> p <= t)
    /\ (forall T,
          (forall k doc, pending w !! k = Some (JsonBody doc) ->
                         total_pages_of doc = Ok (PyInt T)) ->
          forall p, 1 <= p <= Z.of_nat m -> p <= Z.max 1 T).
Proof.
  unfold _fetch_semopx_json.
  destruct (walk_requests (S (length (pending w))) days 0 ([], None) w)
    as (m & Hlog & Hm & Hk).
  assert (forall p, 2 <= p <= Z.of_nat m ->
          exists doc total_pages,
            pending w !! Z.to_nat (p - 2) = Some (JsonBody doc)
            /\ total_pages_of doc = Ok total_pages
            /\ int_ge (p - 1) total_pages = Ok false
            /\ forall t, total_pages = PyInt t -> p <= t) as Hlater.
  { intros p Hp. destruct (Hk (Z.to_nat (p - 2)) ltac:(lia)) as (doc & tp & H1 & H2 & H3).
    replace (0 + 1 + Z.of_nat (Z.to_nat (p - 2))) with (p - 1) in H3 by lia.
    exists doc, tp. repeat split; try assumption.
    intros t ->. cbn in H3. injection H3 as H3. lia. }
  exists m. repeat split.
  - specialize (Hm ltac:(congruence)). lia.
  - exact Hlog.
  - exact Hlater.
  - intros T HT p Hp. destruct (Z.eq_dec p 1) as [-> | Hne]; [lia |].
    destruct (Hlater p ltac:(lia)) as (doc & tp & H1 & H2 & _ & H4).
    specialize (HT _ _ H1). rewrite H2 in HT. injection HT as ->.
    specialize (H4 T eq_refl). lia.
Qed.

(** C9 as stated fails: [empty_index] reports [totalPages = 0], and the
    walker has requested page 1. *)
Lemma page_one_requested_though_total_is_zero :
  total_pages_of empty_index = Ok (PyInt 0)
  /\ _fetch_semopx_json 5 (World [JsonBody empty_index] [])
     = (Returned [], World [] [GetIndex 1])
  /\ ~ (1 <= 0).
Proof. repeat split. lia. Qed.

End Walker.

(** * What the walker keeps *)

Section WalkerInvariants.

Lemma str_take_length n : forall s, (String.length (str_take n s) <= n)%nat.
Proof.
  unfold str_take. induction n as [|n IH]; intros [|c s]; cbn; try lia.
  specialize (IH s). lia.
Qed.

Lemma append_resource_Forall (P : string * report -> Prop) k r d :
  (forall kv, P kv -> P (fst kv, Report (date (snd kv)) (resources (snd kv) ++ [r]))) ->
  Forall P d -> Forall P (append_resource k r d).
Proof.
  intros Hstep Hd. unfold append_resource. apply Forall_map.
  eapply Forall_impl; [exact Hd |]. intros kv Hkv. cbn beta.
  destruct (String.eqb k (fst kv)); [by apply Hstep | exact Hkv].
Qed.

Lemma group_ok_append kv r :
  group_ok kv -> group_ok (fst kv, Report (date (snd kv)) (resources (snd kv) ++ [r])).
Proof.
  intros (Hdate & Hlen & _). unfold group_ok. cbn [fst snd date resources].
  repeat split; try assumption. intros H. by apply app_eq_nil in H as [_ ?].
Qed.

(** Appending under a key of the dictionary adds the resource once. *)
Lemma append_resource_resources k r d :
  NoDup (map fst d) -> k ∈ map fst d ->
  all_resources (append_resource k r d) ≡ₚ all_resources d ++ [r].
Proof.
  unfold all_resources. induction d as [|kv d IH]; intros Hnd Hk.
  - by apply elem_of_nil in Hk.
  - cbn [map] in Hnd, Hk. apply NoDup_cons in Hnd as [Hkv Hnd].
    fold (append_resource k r (kv :: d)). cbn [append_resource map flat_map].
    fold (append_resource k r d).
    destruct (String.eqb_spec k (fst kv)) as [-> | Hne].
    + rewrite (append_resource_absent (fst kv) r d Hkv). cbn [snd resources].
      rewrite <- !app_assoc. apply Permutation_app_head, Permutation_app_comm.
    + apply elem_of_cons in Hk as [-> | Hk]; [contradiction |].
      rewrite (IH Hnd Hk). by rewrite app_assoc.
Qed.

(** The item loop on a typed item keeps [groups_inv], and adds the
    item's resource, once, to the resources collected. *)
Lemma walk_item_inv st item :
  groups_inv st ->
  groups_inv (walk_item st item)
  /\ all_resources (fst (walk_item st item)) ≡ₚ all_resources (fst st) ++ [snd item].
Proof.
  destruct st as [report_dict report]. intros (Hnd & Hok & Hcur). cbn [fst snd] in *.
  unfold walk_item. cbn [fst snd].
  destruct (has_key (key_date item) report_dict) eqn:Hk; cbn [fst snd].
  - apply has_key_spec in Hk. destruct report as [c |].
    2:{ subst report_dict. by apply elem_of_nil in Hk. }
    cbn [default]. split.
    + unfold groups_inv. cbn [fst snd]. rewrite append_resource_keys.
      repeat split; try assumption.
      apply append_resource_Forall; [intros kv; apply group_ok_append | assumption].
    + by apply append_resource_resources.
  - assert (key_date item ∉ map fst report_dict) as Hnk.
    { intros H%has_key_spec. congruence. }
    cbn [default]. rewrite append_resource_new by assumption. split.
    + unfold groups_inv. cbn [fst snd]. rewrite map_app. cbn [map fst].
      repeat split.
      * apply NoDup_app. repeat split; try assumption; [| apply NoDup_singleton].
        intros x Hx ->%list_elem_of_singleton. contradiction.
      * apply Forall_app. split; [assumption |]. apply Forall_singleton.
        unfold group_ok. cbn [fst snd date resources].
        repeat split; [apply str_take_length | discriminate].
      * apply elem_of_app. right. apply list_elem_of_here.
    + unfold all_resources. rewrite flat_map_app. cbn. reflexivity.
Qed.

Lemma walk_items_inv items :
  forall st,
  groups_inv st ->
  groups_inv (fold_left walk_item items st)
  /\ all_resources (fst (fold_left walk_item items st))
     ≡ₚ all_resources (fst st) ++ map snd items.
Proof.
  induction items as [|item items IH]; intros st Hinv.
  - cbn. by rewrite app_nil_r.
  - cbn [fold_left map]. destruct (walk_item_inv st item Hinv) as [Hinv1 Hperm1].
    destruct (IH _ Hinv1) as [Hinv2 Hperm2]. split; [exact Hinv2 |].
    rewrite Hperm2, Hperm1. by rewrite <- app_assoc.
Qed.

(** Whenever [add_item] returns, the item had a string [Date] and a
    [ResourceName], and the new state is that of [walk_item]; when it
    raises, the exception is a [KeyError] or a [TypeError]. *)
Lemma add_item_outcome st item_rec :
  groups_inv st ->
  match add_item st item_rec with
  | Ok st' => exists item, decode_item item_rec = Some item /\ st' = walk_item st item
  | Raise e => walker_exn e = true
  end.
Proof.
  destruct st as [report_dict report]. intros (Hnd & Hok & Hcur). cbn [fst snd] in *.
  unfold add_item, decode_item.
  destruct (getitem_str item_rec "Date") as [d | e] eqn:Hd; cbn [res_bind].
  2:{ unfold getitem_str in Hd. destruct item_rec; try (by injection Hd as <-).
      destruct (assoc "Date" items); [discriminate | by injection Hd as <-]. }
  destruct d as [| | | | d | |]; cbn [slice_to res_bind hashable]; try reflexivity.
  set (kd := str_take 10 d).
  assert (forall r, walk_item (report_dict, report) (d, r)
            = (let st1 := if has_key kd report_dict then (report_dict, report)
                          else (report_dict ++ [(kd, Report kd [])], Some kd) in
               (append_resource (default kd (snd st1)) r (fst st1), snd st1))) as Hwalk
    by reflexivity.
  assert (forall e, getitem_str item_rec "ResourceName" = Raise e -> walker_exn e = true)
    as Hraise.
  { intros e He. unfold getitem_str in He. destruct item_rec; try (by injection He as <-).
    destruct (assoc "ResourceName" items); [discriminate | by injection He as <-]. }
  destruct (has_key kd report_dict) eqn:Hk; cbn [negb fst snd].
  - destruct report as [c |].
    2:{ subst report_dict. discriminate. }
    destruct (getitem_str item_rec "ResourceName") as [r | e] eqn:Hr; cbn [res_bind];
      [| by apply Hraise].
    exists (d, r). split; [reflexivity |]. by rewrite Hwalk.
  - destruct (getitem_str item_rec "ResourceName") as [r | e] eqn:Hr; cbn [res_bind];
      [| by apply Hraise].
    exists (d, r). split; [reflexivity |]. by rewrite Hwalk.
Qed.

Lemma add_items_outcome item_recs :
  forall st,
  groups_inv st ->
  match res_fold add_item st item_recs with
  | Ok st' => groups_inv st'
  | Raise e => walker_exn e = true
  end.
Proof.
  induction item_recs as [|item_rec item_recs IH]; intros st Hinv; [exact Hinv |].
  cbn [res_fold]. pose proof (add_item_outcome st item_rec Hinv) as H.
  destruct (add_item st item_rec) as [st1 | e]; cbn [res_bind]; [| exact H].
  destruct H as (item & _ & ->). apply IH. by apply walk_item_inv.
Qed.

Lemma getitem_str_raises o k e : getitem_str o k = Raise e -> walker_exn e = true.
Proof.
  unfold getitem_str. destruct o; try (by intros [= <-]).
  destruct (assoc k items); [discriminate | by intros [= <-]].
Qed.

Lemma walk_page_outcome days page st w :
  groups_inv st ->
  match fst (walk_page days page st w) with
  | Returned (_, st') => groups_inv st'
  | Raised e => walker_exn e = true \/ (e = ClientError /\ ClientFailure ∈ pending w)
  | Starved => True
  end.
Proof.
  intros Hinv. unfold walk_page, io_bind, _async_fetch, io_ret.
  assert (forall doc rest log,
    match fst ((let! items := io_lift (getitem_str doc "items") in
                let! item_recs := io_lift (py_iter items) in
                let! st' := io_lift (res_fold add_item st item_recs) in
                let! pagination := io_lift (getitem_str doc "pagination") in
                let! total_pages := io_lift (getitem_str pagination "totalPages") in
                let! last := io_lift (int_ge page total_pages) in
                io_ret (last || (days <? Z.of_nat (length (fst st'))), st'))
               (World rest log)) with
    | Returned (_, st') => groups_inv st'
    | Raised e => walker_exn e = true \/ (e = ClientError /\ ClientFailure ∈ pending w)
    | Starved => True
    end) as Hdoc.
  { intros doc rest log. unfold io_bind, io_ret.
    destruct (getitem_str doc "items") as [items | e] eqn:Hi; cbn [io_lift fst];
      [| left; by apply getitem_str_raises in Hi].
    destruct (py_iter items) as [item_recs | e] eqn:Hit; cbn [io_lift fst].
    2:{ left. destruct items; try discriminate; by injection Hit as <-. }
    pose proof (add_items_outcome item_recs st Hinv) as Hfold.
    destruct (res_fold add_item st item_recs) as [st' | e]; cbn [io_lift fst];
      [| left; exact Hfold].
    destruct (getitem_str doc "pagination") as [pagination | e] eqn:Hp; cbn [io_lift fst];
      [| left; by apply getitem_str_raises in Hp].
    destruct (getitem_str pagination "totalPages") as [total_pages | e] eqn:Ht;
      cbn [io_lift fst]; [| left; by apply getitem_str_raises in Ht].
    destruct (int_ge page total_pages) as [last | e] eqn:Hge; cbn [io_lift fst];
      [exact Hfold |].
    left. destruct total_pages; try discriminate; by injection Hge as <-. }
  destruct (pending w) as [|[| doc | |] rest]; cbn [fst]; try exact I;
    try (left; reflexivity).
  - exact (Hdoc doc rest (issued w ++ [GetIndex page])).
  - right. split; [reflexivity | apply list_elem_of_here].
Qed.

Lemma walk_outcome days :
  forall fuel page st w,
  groups_inv st ->
  match fst (walk fuel days page st w) with
  | Returned report_dict => NoDup (map fst report_dict) /\ Forall group_ok report_dict
  | Raised e => walker_exn e = true \/ (e = ClientError /\ ClientFailure ∈ pending w)
  | Starved => True
  end.
Proof.
  induction fuel as [|fuel IH]; intros page st w Hinv; [exact I |].
  cbn [walk]. unfold io_bind.
  pose proof (walk_page_outcome days (page + 1) st w Hinv) as Hturn.
  pose proof (walk_page_pending days (page + 1) st w) as Hp.
  destruct (walk_page days (page + 1) st w) as [[[stop st'] | e |] w1]; cbn [fst snd] in *;
    try assumption.
  destruct stop.
  - unfold io_ret. cbn [fst]. destruct Hturn as (Hnd & Hok & _). auto.
  - specialize (IH (page + 1) st' w1 Hturn). destruct Hp as [resp Hp].
    destruct (fst (walk fuel days (page + 1) st' w1)) as [report_dict | e |];
      [exact IH | | exact I].
    destruct IH as [Hown | [-> Hin]]; [by left | right].
    split; [reflexivity |]. rewrite Hp. by apply list_elem_of_further.
Qed.

Lemma groups_inv_initial : groups_inv ([], None).
Proof. unfold groups_inv. cbn. repeat split; [apply NoDup_nil_2 | apply Forall_nil_2]. Qed.

(** X1. Whatever the index answers, the dictionary the walker returns
    has distinct keys, and each of its groups carries its key as [date],
    a key of at most 10 characters, and at least one resource. *)
Theorem walker_returns_well_formed_groups days w :
  match fst (_fetch_semopx_json days w) with
  | Returned report_dict => NoDup (map fst report_dict) /\ Forall group_ok report_dict
  | _ => True
  end.
Proof.
  unfold _fetch_semopx_json.
  pose proof (walk_outcome days (S (length (pending w))) 0 ([], None) w groups_inv_initial)
    as H.
  destruct (fst (walk (S (length (pending w))) days 0 ([], None) w)); auto.
Qed.

(** X2. When every index request is answered (status 204, a JSON body
    or an empty body), the walker raises nothing but a [KeyError] or a
    [TypeError]: these are the only exceptions of its own statements,
    whatever the documents hold. *)
Theorem walker_own_exceptions_are_key_or_type_errors days w :
  Forall (fun resp => answered resp = true) (pending w) ->
  match fst (_fetch_semopx_json days w) with
  | Raised e => e = KeyError \/ e = TypeError
  | _ => True
  end.
Proof.
  intros Hans. unfold _fetch_semopx_json.
  pose proof (walk_outcome days (S (length (pending w))) 0 ([], None) w groups_inv_initial)
    as H.
  destruct (fst (walk (S (length (pending w))) days 0 ([], None) w)) as [| e |];
    [exact I | | exact I].
  destruct H as [Hown | [_ Hin]].
  - destruct e; try discriminate; auto.
  - rewrite Forall_forall in Hans. by specialize (Hans _ Hin).
Qed.

(** X15. The walker never reads its variable [report] unbound: the first
    item of a run always creates a group, so line 70 finds [report]
    bound, whatever the index answers. *)
Theorem walker_never_reads_report_unbound days w :
  match fst (_fetch_semopx_json days w) with
  | Raised UnboundLocalError => False
  | _ => True
  end.
Proof.
  unfold _fetch_semopx_json.
  pose proof (walk_outcome days (S (length (pending w))) 0 ([], None) w groups_inv_initial)
    as H.
  destruct (fst (walk (S (length (pending w))) days 0 ([], None) w)) as [| e |];
    [exact I | | exact I].
  destruct e; try exact I. by destruct H as [? | [? _]].
Qed.

(** X3. On pages of the documented shape the walker loses no resource
    and collects none twice: the resources of the groups it returns are,
    up to order, the resources of the items of the pages it read. *)
Theorem walker_collects_every_resource_once days docs pages rest log (n : nat) :
  Forall2 (fun doc pg => decode_page doc = Some pg) docs pages ->
  (1 <= n <= length pages)%nat ->
  stop_after days pages n = true ->
  (forall k, (1 <= k < n)%nat -> stop_after days pages k = false) ->
  exists report_dict,
    fst (_fetch_semopx_json days (World (map JsonBody docs ++ rest) log))
    = Returned report_dict
    /\ all_resources report_dict ≡ₚ map snd (all_items (take n pages)).
Proof.
  intros Hdec Hn Hstop Hfirst. unfold _fetch_semopx_json. cbn [pending].
  destruct (walk_decoded days docs pages n
              (S (length (map JsonBody docs ++ rest))) 0 ([], None) [] rest log
              Hdec walker_inv_initial Hn) as (Hrun & _).
  - rewrite length_app, length_map. apply Forall2_length in Hdec. lia.
  - exact Hstop.
  - exact Hfirst.
  - rewrite Hrun. eexists. split; [reflexivity |].
    by destruct (walk_items_inv (all_items (take n pages)) ([], None) groups_inv_initial)
      as [_ Hperm].
Qed.

End WalkerInvariants.

(** * Properties of the result merger *)

Section Merger.
Context {lib : DateLib}.
Variable self : AioPrices.

Lemma list_getitem_nat {A} (l : list A) (n : nat) :
  list_getitem l (Z.of_nat n)
  = match l !! n with Some x => Ok x | None => Raise IndexError end.
Proof.
  unfold list_getitem.
  destruct (Z.ltb_spec (Z.of_nat n) 0) as [H | _]; [lia |].
  destruct (Z.ltb_spec (Z.of_nat n) 0) as [H | _]; [lia |].
  by rewrite Nat2Z.id.
Qed.

(** One turn of the price loop is one [store]. *)
Lemma merge_price_store key_list context_prefix (n : nat) rec_dict price :
  merge_price self key_list context_prefix (Z.of_nat n - 1, rec_dict) price
  = match key_list !! n with
    | None => Raise IndexError
    | Some key =>
        let* rate := truediv_1000 price in
        Ok (Z.of_nat (S n) - 1, store self context_prefix rec_dict (key, rate))
    end.
Proof.
  unfold merge_price. rewrite Z.sub_add, list_getitem_nat.
  destruct (key_list !! n) as [key |]; cbn [res_bind]; [| reflexivity].
  destruct (truediv_1000 price) as [rate |]; cbn [res_bind]; [| reflexivity].
  replace (Z.of_nat (S n) - 1) with (Z.of_nat n) by lia.
  unfold store. cbn [fst snd].
  destruct (rec_dict !! fst key) as [rec |] eqn:Hrec; cbn [default].
  - rewrite Hrec. reflexivity.
  - rewrite lookup_insert_eq, insert_insert_eq. reflexivity.
Qed.

Lemma merge_price_fold key_list context_prefix price_list :
  forall (n : nat) rec_dict,
  res_fold (merge_price self key_list context_prefix) (Z.of_nat n - 1, rec_dict) price_list
  = let* updates := price_updates (drop n key_list) price_list in
    Ok (Z.of_nat (n + length price_list) - 1,
        fold_left (store self context_prefix) updates rec_dict).
Proof.
  induction price_list as [|price price_list IH]; intros n rec_dict.
  - cbn [res_fold price_updates res_bind fold_left length]. by rewrite Nat.add_0_r.
  - cbn [res_fold price_updates]. rewrite merge_price_store.
    destruct (key_list !! n) as [key |] eqn:Hkey.
    + rewrite (drop_S key_list key n) by assumption.
      destruct (truediv_1000 price) as [rate |]; cbn [res_bind]; [| reflexivity].
      rewrite IH. destruct (price_updates (drop (S n) key_list) price_list);
        cbn [res_bind fold_left length]; [| reflexivity].
      do 3 f_equal. lia.
    + apply lookup_ge_None in Hkey. rewrite drop_ge by lia. reflexivity.
Qed.

(** [_merge_prices] stores the updates of its price list, in order. *)
Lemma merge_prices_updates rec_dict key_list data_set_list context_prefix :
  _merge_prices self rec_dict key_list data_set_list context_prefix
  = let* column := getitem_int data_set_list 3 in
    let* price_list := py_iter column in
    let* updates := price_updates key_list price_list in
    Ok (fold_left (store self context_prefix) updates rec_dict).
Proof.
  unfold _merge_prices.
  destruct (getitem_int data_set_list 3) as [column |]; cbn [res_bind]; [| reflexivity].
  destruct (py_iter column) as [price_list |]; cbn [res_bind]; [| reflexivity].
  change (-1) with (Z.of_nat 0 - 1). rewrite merge_price_fold, drop_0.
  destruct (price_updates key_list price_list); reflexivity.
Qed.

Lemma lookup_store context_prefix rec_dict u t :
  store self context_prefix rec_dict u !! t
  = store_at self context_prefix t (rec_dict !! t) u.
Proof.
  unfold store, store_at. destruct (decide (fst (fst u) = t)) as [<- | Hne].
  - by rewrite lookup_insert_eq.
  - by rewrite lookup_insert_ne.
Qed.

Lemma lookup_fold_store context_prefix updates :
  forall rec_dict t,
  fold_left (store self context_prefix) updates rec_dict !! t
  = fold_left (store_at self context_prefix t) updates (rec_dict !! t).
Proof.
  induction updates as [|u updates IH]; intros rec_dict t; [reflexivity |].
  cbn [fold_left]. by rewrite IH, lookup_store.
Qed.

(** On a record that exists, the updates amount to storing the last rate. *)
Lemma fold_store_at_some context_prefix t updates :
  forall rec,
  fold_left (store_at self context_prefix t) updates (Some rec)
  = Some (match last_rate t updates with
          | Some rate => <[rate_field context_prefix := PyFloat rate]> rec
          | None => rec
          end).
Proof.
  induction updates as [|u updates IH]; intros rec; [reflexivity |].
  cbn [fold_left last_rate]. unfold store_at at 2.
  destruct (decide (fst (fst u) = t)) as [Heq | Hne]; cbn [default]; rewrite IH.
  - destruct (last_rate t updates); [by rewrite insert_insert_eq | reflexivity].
  - destruct (last_rate t updates); reflexivity.
Qed.

Lemma fold_store_at_untouched context_prefix t updates :
  forall o, last_rate t updates = None ->
  fold_left (store_at self context_prefix t) updates o = o.
Proof.
  induction updates as [|u updates IH]; intros o Hlast; [reflexivity |].
  cbn [fold_left last_rate] in *.
  destruct (last_rate t updates); [discriminate |].
  unfold store_at at 2. destruct (decide (fst (fst u) = t)); [discriminate |].
  by apply IH.
Qed.

Lemma fold_store_at_last context_prefix t updates :
  forall o rate, last_rate t updates = Some rate ->
  exists rec,
    fold_left (store_at self context_prefix t) updates o
    = Some (<[rate_field context_prefix := PyFloat rate]> rec).
Proof.
  induction updates as [|u updates IH]; intros o rate Hlast; [discriminate |].
  cbn [fold_left last_rate] in *.
  destruct (last_rate t updates) as [rate' |] eqn:Hrest.
  - injection Hlast as ->. by apply IH.
  - destruct (decide (fst (fst u) = t)) as [Heq | Hne]; [| discriminate].
    injection Hlast as <-. unfold store_at at 2. rewrite decide_True by assumption.
    rewrite fold_store_at_some, Hrest. eauto.
Qed.

(** Storing the same updates once more changes nothing. *)
Lemma fold_store_idempotent context_prefix updates rec_dict :
  fold_left (store self context_prefix) updates
    (fold_left (store self context_prefix) updates rec_dict)
  = fold_left (store self context_prefix) updates rec_dict.
Proof.
  apply map_eq. intros t. rewrite !lookup_fold_store.
  destruct (last_rate t updates) as [rate |] eqn:Hlast.
  - destruct (fold_store_at_last context_prefix t updates (rec_dict !! t) rate Hlast)
      as (rec & ->).
    rewrite fold_store_at_some, Hlast. by rewrite insert_insert_eq.
  - by rewrite !fold_store_at_untouched.
Qed.

Lemma merge_prices_idempotent rec_dict key_list data_set_list context_prefix merged :
  _merge_prices self rec_dict key_list data_set_list context_prefix = Ok merged ->
  _merge_prices self merged key_list data_set_list context_prefix = Ok merged.
Proof.
  rewrite !merge_prices_updates. intros H.
  destruct (getitem_int data_set_list 3) as [column |]; [| discriminate].
  cbn [res_bind] in *.
  destruct (py_iter column) as [price_list |]; [| discriminate].
  cbn [res_bind] in *.
  destruct (price_updates key_list price_list) as [updates |]; [| discriminate].
  cbn [res_bind] in *. injection H as <-. by rewrite fold_store_idempotent.
Qed.

Lemma merge_row_updates context_prefix rec_dict data_set_list :
  merge_row self context_prefix rec_dict data_set_list
  = let* updates := row_updates self data_set_list in
    Ok (fold_left (store self context_prefix) updates rec_dict).
Proof.
  unfold merge_row, row_updates.
  destruct (getitem_int data_set_list 0) as [head |]; cbn [res_bind]; [| reflexivity].
  destruct (getitem_int head 1) as [area |]; cbn [res_bind]; [| reflexivity].
  destruct (contains (market_area self) area) as [found |]; cbn [res_bind]; [| reflexivity].
  destruct (negb found); [reflexivity |].
  destruct (getitem_int data_set_list 2) as [column |]; cbn [res_bind]; [| reflexivity].
  destruct (py_iter column) as [date_strs |]; cbn [res_bind]; [| reflexivity].
  destruct (res_map (_parse_semopx_time self) date_strs) as [key_list |];
    cbn [res_bind]; [| reflexivity].
  rewrite merge_prices_updates.
  destruct (getitem_int data_set_list 3) as [prices |]; cbn [res_bind]; [| reflexivity].
  destruct (py_iter prices) as [price_list |]; reflexivity.
Qed.

Lemma merge_rows_updates context_prefix data_sets :
  forall rec_dict,
  res_fold (merge_row self context_prefix) rec_dict data_sets
  = let* updates := res_map (row_updates self) data_sets in
    Ok (fold_left (store self context_prefix) (concat updates) rec_dict).
Proof.
  induction data_sets as [|row data_sets IH]; intros rec_dict; [reflexivity |].
  cbn [res_fold res_map]. rewrite merge_row_updates.
  destruct (row_updates self row) as [us |]; cbn [res_bind]; [| reflexivity].
  rewrite IH. destruct (res_map (row_updates self) data_sets) as [uss |];
    cbn [res_bind concat]; [| reflexivity].
  by rewrite fold_left_app.
Qed.

(** The stored rate of a timestamp is the rate of its last update. *)
Lemma fold_store_last context_prefix updates rec_dict t rate :
  last_rate t updates = Some rate ->
  exists rec,
    fold_left (store self context_prefix) updates rec_dict !! t = Some rec
    /\ rec !! rate_field context_prefix = Some (PyFloat rate).
Proof.
  intros Hlast. rewrite lookup_fold_store.
  destruct (fold_store_at_last context_prefix t updates (rec_dict !! t) rate Hlast)
    as (rec & ->).
  eexists. split; [reflexivity |]. apply lookup_insert_eq.
Qed.

(** C5. Merging is idempotent: merging the rows of a document for a
    session prefix a second time, into the dictionary the first merge
    produced, gives that dictionary again.  The rate stored for a
    timestamp is the one written last for it: it is overwritten, never
    added to. *)
Theorem merge_rows_idempotent context_prefix data_sets rec_dict merged :
  res_fold (merge_row self context_prefix) rec_dict data_sets = Ok merged ->
  res_fold (merge_row self context_prefix) merged data_sets = Ok merged
  /\ exists updates,
       res_map (row_updates self) data_sets = Ok updates
       /\ forall t rate, last_rate t (concat updates) = Some rate ->
            exists rec, merged !! t = Some rec
                        /\ rec !! rate_field context_prefix = Some (PyFloat rate).
Proof.
  rewrite !merge_rows_updates. intros H.
  destruct (res_map (row_updates self) data_sets) as [updates |]; [| discriminate].
  cbn [res_bind] in *. injection H as <-. split.
  - by rewrite fold_store_idempotent.
  - exists updates. split; [reflexivity |]. intros t rate. apply fold_store_last.
Qed.





(** The divisor of a float price is [1000.0]: its mantissa times
    [2 ^ -43] is 1000. *)
Lemma float_1000_mantissa :
  float_1000 = S754_finite false (Z.to_pos (1000 * 2 ^ 43)) (-43).
Proof. reflexivity. Qed.



Lemma res_map_length {A B} (f : A -> res B) xs :
  forall ys, res_map f xs = Ok ys -> length ys = length xs.
Proof.
  induction xs as [|x xs IH]; intros ys H.
  - by injection H as <-.
  - cbn [res_map] in H. destruct (f x); [| discriminate]. cbn [res_bind] in H.
    destruct (res_map f xs) as [ys' |]; [| discriminate].
    injection H as <-. cbn. by rewrite (IH ys').
Qed.

Lemma price_updates_overrun price_list :
  forall key_list rates,
  Forall2 (fun price rate => truediv_1000 price = Ok rate) price_list rates ->
  (length key_list < length price_list)%nat ->
  price_updates key_list price_list = Raise IndexError.
Proof.
  induction price_list as [|price price_list IH]; intros key_list rates Hdiv Hlen.
  - cbn in Hlen. lia.
  - apply Forall2_cons_inv_l in Hdiv as (rate & rates' & Hrate & Hdiv & ->).
    destruct key_list as [|key key_list]; [reflexivity |].
    cbn [price_updates]. rewrite Hrate. cbn [res_bind].
    rewrite (IH key_list rates' Hdiv); [reflexivity |]. cbn in Hlen. lia.
Qed.

Lemma price_updates_zip price_list :
  forall key_list rates,
  Forall2 (fun price rate => truediv_1000 price = Ok rate) price_list rates ->
  (length price_list <= length key_list)%nat ->
  price_updates key_list price_list
  = Ok (zip (take (length price_list) key_list) rates).
Proof.
  induction price_list as [|price price_list IH]; intros key_list rates Hdiv Hlen.
  - apply Forall2_nil_inv_l in Hdiv as ->. reflexivity.
  - apply Forall2_cons_inv_l in Hdiv as (rate & rates' & Hrate & Hdiv & ->).
    destruct key_list as [|key key_list]; [cbn in Hlen; lia |].
    cbn [price_updates]. rewrite Hrate. cbn [res_bind].
    rewrite (IH key_list rates' Hdiv) by (cbn in Hlen; lia). reflexivity.
Qed.

(** C10. For a row of the configured market area whose timestamps all
    parse and whose prices are all numbers: when the price list (element
    3) is longer than the timestamp list (element 2), merging raises
    [IndexError]; when it is shorter, the timestamps beyond the prices
    are ignored, and exactly the first [len(prices)] pairs are merged. *)
Theorem price_list_length_mismatch
    context_prefix rec_dict data_set_list head area timestamps date_strs key_list
    column price_list rates :
  getitem_int data_set_list 0 = Ok head ->
  getitem_int head 1 = Ok area ->
  contains (market_area self) area = Ok true ->
  getitem_int data_set_list 2 = Ok timestamps ->
  py_iter timestamps = Ok date_strs ->
  res_map (_parse_semopx_time self) date_strs = Ok key_list ->
  getitem_int data_set_list 3 = Ok column ->
  py_iter column = Ok price_list ->
  Forall2 (fun price rate => truediv_1000 price = Ok rate) price_list rates ->
  ((length date_strs < length price_list)%nat ->
     merge_row self context_prefix rec_dict data_set_list = Raise IndexError)
  /\ ((length price_list < length date_strs)%nat ->
        merge_row self context_prefix rec_dict data_set_list
        = Ok (fold_left (store self context_prefix)
                (zip (take (length price_list) key_list) rates) rec_dict)).
Proof.
  intros H0 H1 Harea H2 Hts Hkeys H3 Hps Hdiv.
  pose proof (res_map_length _ _ _ Hkeys) as Hlen.
  assert (merge_row self context_prefix rec_dict data_set_list
          = let* updates := price_updates key_list price_list in
            Ok (fold_left (store self context_prefix) updates rec_dict)) as ->.
  { rewrite merge_row_updates. unfold row_updates.
    rewrite H0. cbn [res_bind]. rewrite H1. cbn [res_bind]. rewrite Harea. cbn [res_bind negb].
    rewrite H2. cbn [res_bind]. rewrite Hts. cbn [res_bind]. rewrite Hkeys. cbn [res_bind].
    rewrite H3. cbn [res_bind]. rewrite Hps. reflexivity. }
  split; intros Hlt.
  - rewrite (price_updates_overrun price_list key_list rates Hdiv) by lia. reflexivity.
  - rewrite (price_updates_zip price_list key_list rates Hdiv) by lia. reflexivity.
Qed.

(** *** Finalization *)

Lemma data_rec_not_final key : data_rec self key !! "final_kwh_rate" = None.
Proof. unfold data_rec. by rewrite !lookup_insert_ne, lookup_empty. Qed.

Lemma store_not_finalized context_prefix rec_dict u :
  rate_field context_prefix <> "final_kwh_rate" ->
  not_finalized rec_dict ->
  not_finalized (store self context_prefix rec_dict u).
Proof.
  intros Hfield Hnf t rec. rewrite lookup_store. unfold store_at.
  destruct (decide (fst (fst u) = t)) as [<- | Hne]; [| apply Hnf].
  intros [= <-]. rewrite lookup_insert_ne by assumption.
  destruct (rec_dict !! fst (fst u)) as [rec |] eqn:Hrec; cbn [default].
  - by apply (Hnf _ _ Hrec).
  - apply data_rec_not_final.
Qed.

Lemma fold_store_not_finalized context_prefix updates :
  forall rec_dict,
  rate_field context_prefix <> "final_kwh_rate" ->
  not_finalized rec_dict ->
  not_finalized (fold_left (store self context_prefix) updates rec_dict).
Proof.
  induction updates as [|u updates IH]; intros rec_dict Hfield Hnf; [exact Hnf |].
  cbn [fold_left]. apply IH; [assumption |]. by apply store_not_finalized.
Qed.

(** The prefixes [_determine_context_prefix] gives are the four session
    prefixes. *)
Lemma determine_context_prefix_cases resource_name context_prefix :
  _determine_context_prefix resource_name = Ok (Some context_prefix) ->
  context_prefix = "da_" \/ context_prefix = "ida1_"
  \/ context_prefix = "ida2_" \/ context_prefix = "ida3_".
Proof.
  unfold _determine_context_prefix. intros H.
  destruct (contains "SEM-DA" resource_name) as [[] |]; cbn [res_bind] in H;
    [injection H as <-; tauto | | discriminate].
  destruct (contains "SEM-IDA1" resource_name) as [[] |]; cbn [res_bind] in H;
    [injection H as <-; tauto | | discriminate].
  destruct (contains "SEM-IDA2" resource_name) as [[] |]; cbn [res_bind] in H;
    [injection H as <-; tauto | | discriminate].
  destruct (contains "SEM-IDA3" resource_name) as [[] |]; cbn [res_bind] in H;
    [injection H as <-; tauto | discriminate | discriminate].
Qed.

Lemma merge_document_not_finalized rec_dict resource_name doc merged :
  merge_document self rec_dict resource_name doc = Ok merged ->
  not_finalized rec_dict ->
  not_finalized merged.
Proof.
  unfold merge_document. intros H Hnf.
  destruct (negb (truthy doc)); [by injection H as <- |].
  destruct (_determine_context_prefix resource_name) as [[context_prefix |] |] eqn:Hp;
    cbn [res_bind] in H; [| by injection H as <- | discriminate].
  destruct (dict_get doc "rows" (PyList [])) as [rows |]; cbn [res_bind] in H; [| discriminate].
  destruct (py_iter rows) as [data_sets |]; cbn [res_bind] in H; [| discriminate].
  rewrite merge_rows_updates in H.
  destruct (res_map (row_updates self) data_sets) as [updates |]; [| discriminate].
  cbn [res_bind] in H. injection H as <-.
  apply fold_store_not_finalized; [| assumption].
  apply determine_context_prefix_cases in Hp as [-> | [-> | [-> | ->]]]; discriminate.
Qed.

(** The body of the resource loop is a fetch followed by
    [merge_document]. *)
Lemma merge_resource_document rec_dict resource_name w :
  merge_resource self rec_dict resource_name w
  = (let! doc := _async_fetch (GetDocument resource_name) in
     io_lift (merge_document self rec_dict resource_name doc)) w.
Proof.
  unfold merge_resource, merge_document, io_bind.
  destruct (_async_fetch (GetDocument resource_name) w) as [[doc | e |] w1]; try reflexivity.
  destruct (negb (truthy doc)); [reflexivity |].
  destruct (_determine_context_prefix resource_name) as [[context_prefix |] |];
    cbn [res_bind io_lift]; try reflexivity.
  destruct (dict_get doc "rows" (PyList [])) as [rows |]; cbn [res_bind io_lift];
    [| reflexivity].
  destruct (py_iter rows) as [data_sets |]; reflexivity.
Qed.

Lemma merge_resource_returned rec_dict resource_name w merged w' :
  merge_resource self rec_dict resource_name w = (Returned merged, w') ->
  exists doc, merge_document self rec_dict resource_name doc = Ok merged.
Proof.
  rewrite merge_resource_document. unfold io_bind.
  destruct (_async_fetch (GetDocument resource_name) w) as [[doc | e |] w1];
    try discriminate.
  unfold io_lift. destruct (merge_document self rec_dict resource_name doc) eqn:Hd;
    intros [= <- <-]. eauto.
Qed.

Lemma io_fold_invariant {A B} (P : A -> Prop) (f : A -> B -> io A) :
  (forall a b w a' w', P a -> f a b w = (Returned a', w') -> P a') ->
  forall xs a w a' w', P a -> io_fold f a xs w = (Returned a', w') -> P a'.
Proof.
  intros Hf. induction xs as [|x xs IH]; intros a w a' w' Ha H.
  - injection H as <- <-. exact Ha.
  - cbn [io_fold] in H. unfold io_bind in H.
    destruct (f a x w) as [[a1 | e |] w1] eqn:Hx; try discriminate.
    apply (IH a1 w1 a' w'); [| exact H]. by apply (Hf a x w a1 w1).
Qed.

Lemma io_fold_app {A B} (f : A -> B -> io A) xs ys :
  forall a w,
  io_fold f a (xs ++ ys) w = (let! a' := io_fold f a xs in io_fold f a' ys) w.
Proof.
  induction xs as [|x xs IH]; intros a w; [reflexivity |].
  cbn [app io_fold]. unfold io_bind.
  destruct (f a x w) as [[a1 | e |] w1]; try reflexivity.
  rewrite IH. reflexivity.
Qed.

(** The two loops of [_retrieve_market_results] visit [all_resources]. *)
Lemma merge_reports_flat report_dict :
  forall rec_dict w,
  io_fold (fun rec_dict kv => io_fold (merge_resource self) rec_dict (resources (snd kv)))
          rec_dict report_dict w
  = io_fold (merge_resource self) rec_dict (all_resources report_dict) w.
Proof.
  induction report_dict as [|kv report_dict IH]; intros rec_dict w; [reflexivity |].
  unfold all_resources. cbn [io_fold flat_map]. rewrite io_fold_app. unfold io_bind.
  destruct (io_fold (merge_resource self) rec_dict (resources (snd kv)) w)
    as [[merged | e |] w1]; try reflexivity.
  apply IH.
Qed.

Lemma merge_resources_not_finalized resource_names :
  forall rec_dict w merged w',
  not_finalized rec_dict ->
  io_fold (merge_resource self) rec_dict resource_names w = (Returned merged, w') ->
  not_finalized merged.
Proof.
  apply (io_fold_invariant not_finalized).
  intros rec_dict resource_name w merged w' Hnf H.
  apply merge_resource_returned in H as (doc & H).
  by apply (merge_document_not_finalized _ _ _ _ H).
Qed.

Lemma finalize_record_other rec field :
  field <> "final_kwh_rate" ->
  finalize_record rec !! field = rec !! field.
Proof.
  intros Hne. unfold finalize_record.
  repeat match goal with
         | |- context [match ?o with Some _ => _ | None => _ end] => destruct o
         end;
    try reflexivity; by rewrite lookup_insert_ne.
Qed.

Lemma finalize_record_final rec :
  rec !! "final_kwh_rate" = None ->
  finalize_record rec !! "final_kwh_rate"
  = first_present session_fields (finalize_record rec).
Proof.
  intros Hnf. unfold first_present, session_fields. cbn [omap list_omap].
  rewrite (finalize_record_other rec "ida3_kwh_rate"), (finalize_record_other rec "ida2_kwh_rate"),
    (finalize_record_other rec "ida1_kwh_rate"), (finalize_record_other rec "da_kwh_rate")
    by done.
  unfold finalize_record.
  destruct (rec !! "ida3_kwh_rate"); [by rewrite lookup_insert_eq |].
  destruct (rec !! "ida2_kwh_rate"); [by rewrite lookup_insert_eq |].
  destruct (rec !! "ida1_kwh_rate"); [by rewrite lookup_insert_eq |].
  destruct (rec !! "da_kwh_rate"); [by rewrite lookup_insert_eq |].
  exact Hnf.
Qed.

Lemma first_present_none fields rec :
  (forall field, field ∈ fields -> rec !! field = None) ->
  first_present fields rec = None.
Proof.
  unfold first_present. induction fields as [|field fields IH]; intros Hnone;
    [reflexivity |].
  cbn [omap list_omap]. rewrite (Hnone field) by apply list_elem_of_here.
  apply IH. intros f Hf. apply Hnone. by apply list_elem_of_further.
Qed.

(** C2. For every timestamp of the result that
    [_retrieve_market_results] returns, the record's [final_kwh_rate] is
    the value of the first session field the record has in the order
    [ida3_kwh_rate], [ida2_kwh_rate], [ida1_kwh_rate], [da_kwh_rate], and
    it is absent when the record has none of them. *)
Theorem final_rate_is_highest_priority report_dict w result w' t rec :
  _retrieve_market_results self report_dict w = (Returned result, w') ->
  areas result !! t = Some rec ->
  rec !! "final_kwh_rate" = first_present session_fields rec
  /\ ((forall field, field ∈ session_fields -> rec !! field = None) ->
      rec !! "final_kwh_rate" = None).
Proof.
  unfold _retrieve_market_results, io_bind. rewrite merge_reports_flat.
  destruct (io_fold (merge_resource self) ∅ (all_resources report_dict) w)
    as [[merged | e |] w1] eqn:Hrun; try discriminate.
  intros Hret Hrec.
  assert (areas result = _finalize_records merged) as Hareas.
  { unfold io_ret in Hret. destruct (decide (_finalize_records merged = ∅)) as [-> | _];
      by injection Hret as <- <-. }
  rewrite Hareas in Hrec. unfold _finalize_records in Hrec.
  rewrite lookup_fmap in Hrec.
  destruct (merged !! t) as [rec0 |] eqn:Hrec0; [| discriminate].
  injection Hrec as <-.
  assert (rec0 !! "final_kwh_rate" = None) as Hnf.
  { eapply (merge_resources_not_finalized _ ∅ w merged w1); [| exact Hrun | exact Hrec0].
    intros t' rec'. by rewrite lookup_empty. }
  pose proof (finalize_record_final rec0 Hnf) as Hfinal.
  split; [exact Hfinal |].
  intros Hnone. rewrite Hfinal. by apply first_present_none.
Qed.

Lemma retrieve_finish report_dict w :
  _retrieve_market_results self report_dict w
  = finish_merge self ∅ (all_resources report_dict) w.
Proof.
  unfold _retrieve_market_results, finish_merge, io_bind.
  by rewrite merge_reports_flat.
Qed.

(** *** The fuel of [fetch] *)

Lemma merge_resource_pending rec_dict resource_name w :
  (length (pending (snd (merge_resource self rec_dict resource_name w)))
   <= length (pending w))%nat.
Proof.
  rewrite merge_resource_document. unfold io_bind, _async_fetch.
  destruct (pending w) as [|[] rest]; cbn [fst snd pending length]; try lia;
    match goal with
    | |- context [io_lift ?c] => destruct c; cbn [io_lift snd pending]; lia
    end.
Qed.

Lemma io_fold_pending {A B} (f : A -> B -> io A) :
  (forall a b w, (length (pending (snd (f a b w))) <= length (pending w))%nat) ->
  forall xs a w, (length (pending (snd (io_fold f a xs w))) <= length (pending w))%nat.
Proof.
  intros Hf. induction xs as [|x xs IH]; intros a w; [cbn; lia |].
  cbn [io_fold]. unfold io_bind. specialize (Hf a x w).
  destruct (f a x w) as [[a1 | e |] w1]; cbn [snd] in *; try lia.
  specialize (IH a1 w1). lia.
Qed.

Lemma retrieve_pending report_dict w :
  (length (pending (snd (_retrieve_market_results self report_dict w)))
   <= length (pending w))%nat.
Proof.
  rewrite retrieve_finish. unfold finish_merge, io_bind.
  pose proof (io_fold_pending (merge_resource self) (merge_resource_pending)
                (all_resources report_dict) ∅ w) as H.
  destruct (io_fold (merge_resource self) ∅ (all_resources report_dict) w)
    as [[merged | e |] w1]; exact H.
Qed.

(** A call of the body of [fetch] that does not starve has used up at
    least one response. *)
Lemma fetch_once_consumes w :
  match fst (fetch_once self w) with
  | Starved => True
  | _ => (length (pending (snd (fetch_once self w))) < length (pending w))%nat
  end.
Proof.
  unfold fetch_once, io_bind, _fetch_semopx_json.
  pose proof (walk_consumes 5 (S (length (pending w))) 0 ([], None) w) as Hw.
  destruct (walk (S (length (pending w))) 5 0 ([], None) w) as [[report_dict | e |] w1];
    cbn [fst snd] in *; try exact Hw.
  pose proof (retrieve_pending report_dict w1) as Hr.
  destruct (_retrieve_market_results self report_dict w1) as [[result | e |] w2];
    cbn [fst snd] in *; try exact I; lia.
Qed.

(** The fuel of [fetch] is enough: any amount above the length of the
    queue gives the same run. *)
Lemma on_exception_fuel_enough :
  forall fuel fuel' w,
  (length (pending w) < fuel)%nat ->
  (length (pending w) < fuel')%nat ->
  on_exception fuel (fetch_once self) w = on_exception fuel' (fetch_once self) w.
Proof.
  induction fuel as [|fuel IH]; intros fuel' w Hf Hf'; [lia |].
  destruct fuel' as [|fuel']; [lia |].
  cbn [on_exception]. pose proof (fetch_once_consumes w) as Hc.
  destruct (fetch_once self w) as [[result | e |] w1]; cbn [fst snd] in Hc;
    try reflexivity.
  destruct (retried e); [| reflexivity]. apply IH; lia.
Qed.

(** C8. A resource whose detail fetch returns no content (status 204, or
    an empty body) is skipped: its turn of the loop returns the record
    dictionary unchanged and raises nothing, the loop goes on with the
    next resource, and [_retrieve_market_results] completes as it does
    from that dictionary with the resources that follow. *)
Theorem no_content_resource_skipped resp rec_dict resource_name rest log :
  no_content resp = true ->
  merge_resource self rec_dict resource_name (World (resp :: rest) log)
  = (Returned rec_dict, World rest (log ++ [GetDocument resource_name]))
  /\ (forall before after rec0 w0,
        io_fold (merge_resource self) rec0 before w0
          = (Returned rec_dict, World (resp :: rest) log) ->
        io_fold (merge_resource self) rec0 (before ++ resource_name :: after) w0
        = io_fold (merge_resource self) rec_dict after
            (World rest (log ++ [GetDocument resource_name])))
  /\ (forall report_dict before after w0,
        all_resources report_dict = before ++ resource_name :: after ->
        io_fold (merge_resource self) ∅ before w0
          = (Returned rec_dict, World (resp :: rest) log) ->
        _retrieve_market_results self report_dict w0
        = finish_merge self rec_dict after
            (World rest (log ++ [GetDocument resource_name]))).
Proof.
  intros Hresp.
  assert (merge_resource self rec_dict resource_name (World (resp :: rest) log)
          = (Returned rec_dict, World rest (log ++ [GetDocument resource_name]))) as Hskip.
  { rewrite merge_resource_document. unfold io_bind, _async_fetch, merge_document.
    cbn [pending issued].
    destruct resp as [| doc | |]; cbn [no_content] in Hresp; try discriminate;
      try reflexivity.
    rewrite Hresp. reflexivity. }
  assert (forall before after rec0 w0,
        io_fold (merge_resource self) rec0 before w0
          = (Returned rec_dict, World (resp :: rest) log) ->
        io_fold (merge_resource self) rec0 (before ++ resource_name :: after) w0
        = io_fold (merge_resource self) rec_dict after
            (World rest (log ++ [GetDocument resource_name]))) as Hnext.
  { intros before after rec0 w0 Hbefore.
    rewrite io_fold_app. unfold io_bind. rewrite Hbefore.
    cbn [io_fold]. unfold io_bind. rewrite Hskip. reflexivity. }
  repeat split; [exact Hskip | exact Hnext |].
  intros report_dict before after w0 Hall Hbefore.
  rewrite retrieve_finish, Hall. unfold finish_merge, io_bind.
  by rewrite (Hnext before after ∅ w0 Hbefore).
Qed.

(** C7. When the configured timezone is not one of [all_timezones],
    parsing a row timestamp raises the invalid-timezone [ValueError]
    (whatever is handed to [_parse_semopx_time], it raises, and nothing
    that is retried); the retry wrapper retries [ClientError] and
    [KeyError] only, so a [fetch] whose body raises a [ValueError] ends
    there, with that error and without any further request. *)
Theorem invalid_timezone_not_retried :
  timezone self ∉ all_timezones ->
  (forall s utc_dt, parse_dt s = Some utc_dt ->
     _parse_semopx_time self (PyStr s)
     = Raise (ValueError (String.append "Invalid timezone: " (timezone self))))
  /\ (forall datetime_str,
        exists e, _parse_semopx_time self datetime_str = Raise e /\ retried e = false)
  /\ (forall e, retried e = true <-> e = ClientError \/ e = KeyError)
  /\ (forall msg w w',
        fetch_once self w = (Raised (ValueError msg), w') ->
        fetch self w = (Raised (ValueError msg), w')).
Proof.
  intros Htz.
  assert (existsb (String.eqb (timezone self)) all_timezones = false) as Hex.
  { apply not_true_is_false. intros (tz & Hin & Heq)%existsb_exists.
    apply String.eqb_eq in Heq as <-. by apply Htz, list_elem_of_In. }
  repeat split.
  - intros s utc_dt Hs. unfold _parse_semopx_time. by rewrite Hs, Hex.
  - intros datetime_str. unfold _parse_semopx_time.
    destruct datetime_str as [| | | | s | |]; try (by eexists).
    destruct (parse_dt s); [| by eexists]. rewrite Hex. by eexists.
  - destruct e; cbn; intros; (tauto || discriminate).
  - intros [-> | ->]; reflexivity.
  - intros msg w w' Hbody. unfold fetch. cbn [on_exception]. by rewrite Hbody.
Qed.

(** C3, as the code has it. The code reads the area of a row at
    [data_set_list[0][1]].  When a document for a resource whose name
    contains [SEM-DA] returns the single row
    [[[_, "ROI-desc"], _, ["2024-01-01T00:00:00Z"], [1000]]] and the
    market area is ROI, the merge produces exactly one record, keyed by
    the epoch timestamp of 2024-01-01T00:00:00Z, with
    [da_kwh_rate = 1.0] and, after finalization, [final_kwh_rate = 1.0]. *)
Theorem day_ahead_row_gives_one_record name key head unused utc_dt log :
  str_in "SEM-DA" name = true ->
  market_area self = "ROI" ->
  timezone self ∈ all_timezones ->
  parse_dt "2024-01-01T00:00:00Z" = Some utc_dt ->
  exists rec,
    _retrieve_market_results self [(key, Report key [PyStr name])]
      (World [JsonBody (rows_doc [da_row (PyList [head; PyStr "ROI-desc"]) unused])] log)
    = (Returned (Prices {[timestamp utc_dt := rec]}),
       World [] (log ++ [GetDocument (PyStr name)]))
    /\ rec !! "da_kwh_rate" = Some (PyFloat float_one)
    /\ rec !! "final_kwh_rate" = Some (PyFloat float_one).
Proof.
  intros Hname Harea Htz Hparse.
  assert (existsb (String.eqb (timezone self)) all_timezones = true) as Hex.
  { apply existsb_exists. exists (timezone self).
    split; [by apply list_elem_of_In | apply String.eqb_refl]. }
  set (local_key := (timestamp utc_dt, astimezone utc_dt (timezone self))).
  set (merged := <["da_kwh_rate" := PyFloat float_one]> (data_rec self local_key)).
  exists (finalize_record merged).
  split; [| split; reflexivity].
  rewrite retrieve_finish. unfold finish_merge, all_resources, io_bind.
  cbn [flat_map resources snd app io_fold]. unfold io_bind.
  rewrite merge_resource_document. unfold io_bind, _async_fetch. cbn [pending issued io_lift].
  assert (merge_document self ∅ (PyStr name)
            (rows_doc [da_row (PyList [head; PyStr "ROI-desc"]) unused])
          = Ok {[timestamp utc_dt := merged]}) as ->.
  { unfold merge_document, _determine_context_prefix.
    change (truthy (rows_doc _)) with true. cbn [negb contains].
    rewrite Hname. cbn [res_bind].
    change (dict_get (rows_doc ?rows) "rows" _) with (Ok (PyList rows)).
    cbn [res_bind py_iter res_fold].
    rewrite merge_row_updates. unfold row_updates, da_row.
    change (getitem_int (PyList (?x :: _)) 0) with (Ok x). cbn [res_bind].
    change (getitem_int (PyList (_ :: ?x :: _)) 1) with (Ok x). cbn [res_bind contains].
    rewrite Harea. change (str_in "ROI" "ROI-desc") with true. cbn [negb res_bind].
    change (getitem_int (PyList (_ :: _ :: ?x :: _)) 2) with (Ok x).
    change (getitem_int (PyList (_ :: _ :: _ :: ?x :: _)) 3) with (Ok x).
    cbn [res_bind py_iter res_map _parse_semopx_time]. rewrite Hparse, Hex.
    cbn [negb res_bind price_updates].
    change (truediv_1000 (PyInt 1000)) with (Ok float_one).
    cbn [res_bind fold_left]. unfold store. cbn [fst snd].
    rewrite lookup_empty. cbn [default]. by rewrite insert_empty. }
  cbn [io_lift io_fold]. unfold io_ret, _finalize_records.
  rewrite map_fmap_singleton.
  destruct (decide ({[timestamp utc_dt := finalize_record merged]} = ∅)) as [Hempty | _].
  - by apply map_non_empty_singleton in Hempty.
  - reflexivity.
Qed.

End Merger.

(** * Properties of fetch *)

Section Fetch.
Context {lib : DateLib}.
Variable self : AioPrices.

(** Pages of the documented shape that do not meet the stop condition
    are walked through: the loop goes on from the state they leave, on
    what follows them in the queue. *)
Lemma walk_prefix days :
  forall docs pages (fuel : nat) page st seen rest log,
  Forall2 (fun doc pg => decode_page doc = Some pg) docs pages ->
  walker_inv st seen ->
  (forall k, (1 <= k <= length pages)%nat -> stop_from days page seen pages k = false) ->
  walk (length docs + fuel) days page st (World (map JsonBody docs ++ rest) log)
  = walk fuel days (page + Z.of_nat (length docs))
      (fold_left walk_item (all_items pages) st)
      (World rest (log ++ map GetIndex (seqZ (page + 1) (Z.of_nat (length docs))))).
Proof.
  induction docs as [|doc docs IH];
    intros pages fuel page st seen rest log Hdec Hinv Hnever.
  - apply Forall2_nil_inv_l in Hdec as ->. cbn [length Nat.add map app all_items flat_map
      fold_left]. rewrite seqZ_nil by lia. cbn [map]. rewrite app_nil_r, Z.add_0_r.
    reflexivity.
  - apply Forall2_cons_inv_l in Hdec as (pg & pages' & Hpg & Hdec & ->).
    destruct (walk_page_decoded days (page + 1) st seen doc pg
                (map JsonBody docs ++ rest) log Hpg Hinv) as (Hturn & Hinv').
    cbn [length Nat.add walk map app]. unfold io_bind. rewrite Hturn.
    pose proof (Hnever 1%nat ltac:(cbn; lia)) as H1. rewrite stop_from_first in H1.
    rewrite H1.
    rewrite (IH pages' fuel (page + 1) _ _ rest (log ++ [GetIndex (page + 1)]) Hdec Hinv').
    + unfold all_items. cbn [flat_map]. rewrite fold_left_app. f_equal; [lia |].
      f_equal. rewrite <- app_assoc. f_equal.
      rewrite (seqZ_cons (page + 1) (Z.of_nat (S (length docs)))) by lia.
      cbn [map app]. do 2 f_equal. f_equal; lia.
    + intros k Hk. destruct k as [|k]; [lia |].
      rewrite <- stop_from_later. apply Hnever. cbn. lia.
Qed.

(** X4. When the index answers a page request with status 204 or an
    empty body, after any number of pages that did not stop the walk,
    the walker raises [TypeError] ([None] is subscripted); [fetch] does
    not retry it and ends with it, nothing more being requested. *)
Theorem index_without_content_raises_type_error days docs pages resp rest log :
  Forall2 (fun doc pg => decode_page doc = Some pg) docs pages ->
  (forall k, (1 <= k <= length pages)%nat -> stop_after days pages k = false) ->
  resp = Status204 \/ resp = EmptyBody ->
  _fetch_semopx_json days (World (map JsonBody docs ++ resp :: rest) log)
  = (Raised TypeError,
     World rest (log ++ map GetIndex (seqZ 1 (Z.of_nat (S (length docs))))))
  /\ (days = 5 ->
      fetch self (World (map JsonBody docs ++ resp :: rest) log)
      = (Raised TypeError,
         World rest (log ++ map GetIndex (seqZ 1 (Z.of_nat (S (length docs))))))).
Proof.
  intros Hdec Hnever Hresp.
  assert (_fetch_semopx_json days (World (map JsonBody docs ++ resp :: rest) log)
          = (Raised TypeError,
             World rest (log ++ map GetIndex (seqZ 1 (Z.of_nat (S (length docs)))))))
    as Hwalk.
  { unfold _fetch_semopx_json. cbn [pending].
    rewrite (walk_fuel_enough days _ (length docs + S (S (length rest))));
      cbn [pending]; rewrite ?length_app, ?length_map; cbn [length]; try lia.
    rewrite (walk_prefix days docs pages (S (S (length rest))) 0 ([], None) []
               (resp :: rest) log Hdec walker_inv_initial Hnever).
    rewrite Nat2Z.inj_succ, <- Z.add_1_r, seqZ_app by lia.
    rewrite map_app, app_assoc. cbn [walk]. unfold io_bind, walk_page, _async_fetch.
    cbn [pending issued].
    replace (0 + Z.of_nat (length docs) + 1) with (1 + Z.of_nat (length docs)) by lia.
    destruct Hresp as [-> | ->]; reflexivity. }
  split; [exact Hwalk |].
  intros ->. unfold fetch. cbn [on_exception]. unfold fetch_once, io_bind.
  rewrite Hwalk. reflexivity.
Qed.

(** X5. [fetch] retries from what is left: when a call of its body ends
    in an exception that is retried, [fetch] behaves as [fetch] on the
    responses that call left, the groups and records of the failed call
    being dropped. *)
Theorem fetch_retries_from_what_is_left w e w' :
  fetch_once self w = (Raised e, w') ->
  retried e = true ->
  fetch self w = fetch self w'.
Proof.
  intros Hbody Hretried. unfold fetch.
  pose proof (fetch_once_consumes self w) as Hc. rewrite Hbody in Hc. cbn [fst snd] in Hc.
  transitivity (on_exception (length (pending w)) (fetch_once self) w').
  - cbn [on_exception]. by rewrite Hbody, Hretried.
  - apply on_exception_fuel_enough; lia.
Qed.

Lemma on_exception_outcome {A} (target : io A) :
  forall fuel w,
  match fst (on_exception fuel target w) with
  | Raised e => retried e = false
  | _ => True
  end.
Proof.
  induction fuel as [|fuel IH]; intros w; [exact I |].
  cbn [on_exception]. destruct (target w) as [[a | e |] w1] eqn:Ht; cbn [fst]; try exact I.
  destruct (retried e) eqn:He; [apply IH | exact He].
Qed.

(** X6. [fetch] never ends in a [ClientError] or a [KeyError]: these are
    retried for as long as the network answers. *)
Theorem fetch_never_ends_in_retried_error w :
  match fst (fetch self w) with
  | Raised e => e <> ClientError /\ e <> KeyError
  | _ => True
  end.
Proof.
  unfold fetch.
  pose proof (on_exception_outcome (fetch_once self) (S (length (pending w))) w) as H.
  destruct (fst (on_exception (S (length (pending w))) (fetch_once self) w)); try exact I.
  split; intros ->; discriminate.
Qed.

(** *** The requests of the merger *)

Lemma merge_resource_trace rec_dict resource_name w :
  issued (snd (merge_resource self rec_dict resource_name w))
  = issued w ++ [GetDocument resource_name]
  /\ match fst (merge_resource self rec_dict resource_name w) with
     | Returned _ =>
         length (pending w)
         = S (length (pending (snd (merge_resource self rec_dict resource_name w))))
     | _ => True
     end.
Proof.
  rewrite merge_resource_document. unfold io_bind, _async_fetch.
  destruct (pending w) as [|[] rest]; cbn [fst snd pending issued length]; auto;
    match goal with
    | |- context [io_lift ?c] => destruct c; cbn [io_lift fst snd pending issued]; auto
    end.
Qed.

Lemma merge_resources_trace resource_names :
  forall rec_dict w,
  exists k : nat,
    (k <= length resource_names)%nat
    /\ issued (snd (io_fold (merge_resource self) rec_dict resource_names w))
       = issued w ++ map GetDocument (take k resource_names)
    /\ match fst (io_fold (merge_resource self) rec_dict resource_names w) with
       | Returned _ =>
           k = length resource_names
           /\ length (pending w)
              = (length (pending (snd (io_fold (merge_resource self) rec_dict
                                         resource_names w))) + k)%nat
       | _ => True
       end.
Proof.
  induction resource_names as [|r rs IH]; intros rec_dict w.
  - exists 0%nat. cbn. rewrite app_nil_r. repeat split; lia.
  - cbn [io_fold]. unfold io_bind.
    destruct (merge_resource_trace rec_dict r w) as [Hlog Hpend].
    destruct (merge_resource self rec_dict r w) as [[merged | e |] w1];
      cbn [fst snd] in *.
    + destruct (IH merged w1) as (k & Hk & Hlog' & Hret). exists (S k).
      cbn [length take map]. repeat split; [lia | |].
      * rewrite Hlog', Hlog, <- app_assoc. reflexivity.
      * destruct (fst (io_fold (merge_resource self) merged rs w1)); [| exact I | exact I].
        destruct Hret as [-> Hret]. split; [reflexivity | lia].
    + exists 1%nat. cbn [length take map]. rewrite take_0. repeat split; [lia | exact Hlog].
    + exists 1%nat. cbn [length take map]. rewrite take_0. repeat split; [lia | exact Hlog].
Qed.

(** X7. [_retrieve_market_results] requests the resources of
    [report_dict] one by one, in the order of the groups and of their
    lists, a resource listed twice being requested twice: what it has
    requested is always a prefix of that sequence, and all of it, against
    as many responses, when it returns. *)
Theorem merger_requests_each_listed_resource report_dict w :
  exists k : nat,
    (k <= length (all_resources report_dict))%nat
    /\ issued (snd (_retrieve_market_results self report_dict w))
       = issued w ++ map GetDocument (take k (all_resources report_dict))
    /\ match fst (_retrieve_market_results self report_dict w) with
       | Returned _ =>
           k = length (all_resources report_dict)
           /\ length (pending w)
              = (length (pending (snd (_retrieve_market_results self report_dict w)))
                 + k)%nat
       | _ => True
       end.
Proof.
  rewrite retrieve_finish. unfold finish_merge, io_bind.
  destruct (merge_resources_trace (all_resources report_dict) ∅ w)
    as (k & Hk & Hlog & Hret).
  exists k.
  destruct (io_fold (merge_resource self) ∅ (all_resources report_dict) w)
    as [[merged | e |] w1]; cbn [fst snd] in *; auto.
Qed.

(** *** Resources and rows that are passed over *)

Lemma determine_context_prefix_str name :
  exists context_prefix, _determine_context_prefix (PyStr name) = Ok context_prefix.
Proof.
  unfold _determine_context_prefix. cbn [contains res_bind].
  repeat match goal with
         | |- context [if ?b then _ else _] => destruct b
         end; eauto.
Qed.

(** X8. A resource whose name has none of the four session tags is
    requested all the same, and then passed over: whatever document
    comes back, the record dictionary is returned unchanged and nothing
    is raised. *)
Theorem unrecognized_resource_is_fetched_and_skipped name resp rec_dict rest log :
  str_in "SEM-DA" name = false ->
  str_in "SEM-IDA1" name = false ->
  str_in "SEM-IDA2" name = false ->
  str_in "SEM-IDA3" name = false ->
  resp <> ClientFailure ->
  merge_resource self rec_dict (PyStr name) (World (resp :: rest) log)
  = (Returned rec_dict, World rest (log ++ [GetDocument (PyStr name)])).
Proof.
  intros H0 H1 H2 H3 Hresp. rewrite merge_resource_document.
  unfold io_bind, _async_fetch, merge_document, _determine_context_prefix.
  cbn [pending issued contains res_bind]. rewrite H0, H1, H2, H3. cbn [res_bind].
  destruct resp as [| doc | |]; try contradiction; cbn [truthy negb io_lift];
    try reflexivity.
  destruct (negb (truthy doc)); reflexivity.
Qed.

Lemma merge_row_other_area context_prefix rec_dict data_set_list :
  other_area_row (market_area self) data_set_list = true ->
  merge_row self context_prefix rec_dict data_set_list = Ok rec_dict.
Proof.
  unfold other_area_row, merge_row.
  destruct (getitem_int data_set_list 0) as [head |]; [| discriminate]. cbn [res_bind].
  destruct (getitem_int head 1) as [descriptor |]; [| discriminate]. cbn [res_bind].
  destruct (contains (market_area self) descriptor) as [found |]; [| discriminate].
  cbn [res_bind]. intros H. destruct found; [discriminate | reflexivity].
Qed.

(** X9. Rows of other market areas contribute nothing: a document all of
    whose rows have a descriptor [row[0][1]] without the configured
    area leaves the record dictionary unchanged, whatever its other
    columns hold and whether or not the configured timezone is known
    (the timestamps of such rows are never parsed). *)
Theorem rows_of_other_areas_contribute_nothing
    name doc rows data_sets rec_dict rest log :
  dict_get doc "rows" (PyList []) = Ok rows ->
  py_iter rows = Ok data_sets ->
  forallb (other_area_row (market_area self)) data_sets = true ->
  merge_resource self rec_dict (PyStr name) (World (JsonBody doc :: rest) log)
  = (Returned rec_dict, World rest (log ++ [GetDocument (PyStr name)])).
Proof.
  intros Hrows Hiter Hother. rewrite merge_resource_document.
  unfold io_bind, _async_fetch, merge_document. cbn [pending issued].
  destruct (negb (truthy doc)); [reflexivity |].
  destruct (determine_context_prefix_str name) as ([context_prefix |] & ->);
    cbn [res_bind]; [| reflexivity].
  rewrite Hrows. cbn [res_bind]. rewrite Hiter. cbn [res_bind].
  assert (res_fold (merge_row self context_prefix) rec_dict data_sets = Ok rec_dict) as ->;
    [| reflexivity].
  clear Hiter. induction data_sets as [|row data_sets IH]; [reflexivity |].
  cbn [forallb] in Hother. apply andb_prop in Hother as [Hrow Hother].
  cbn [res_fold]. rewrite (merge_row_other_area _ _ _ Hrow). cbn [res_bind]. by apply IH.
Qed.

(** *** What merging keeps *)

Lemma rate_field_session context_prefix :
  context_prefix = "da_" \/ context_prefix = "ida1_"
  \/ context_prefix = "ida2_" \/ context_prefix = "ida3_" ->
  rate_field context_prefix ∈ session_fields.
Proof.
  unfold session_fields. intros [-> | [-> | [-> | ->]]]; cbn.
  - do 3 apply list_elem_of_further. apply list_elem_of_here.
  - do 2 apply list_elem_of_further. apply list_elem_of_here.
  - apply list_elem_of_further. apply list_elem_of_here.
  - apply list_elem_of_here.
Qed.

(** A document either leaves the dictionary as it is, or stores a list
    of updates under one of the session fields. *)
Lemma merge_document_updates rec_dict resource_name doc merged :
  merge_document self rec_dict resource_name doc = Ok merged ->
  merged = rec_dict
  \/ exists context_prefix updates,
       _determine_context_prefix resource_name = Ok (Some context_prefix)
       /\ rate_field context_prefix ∈ session_fields
       /\ forall rec_dict',
            merge_document self rec_dict' resource_name doc
            = Ok (fold_left (store self context_prefix) updates rec_dict')
            /\ merged = fold_left (store self context_prefix) updates rec_dict.
Proof.
  unfold merge_document. intros H.
  destruct (negb (truthy doc)); [left; by injection H as <- |].
  destruct (_determine_context_prefix resource_name) as [[context_prefix |] |] eqn:Hp;
    cbn [res_bind] in *; [| left; by injection H as <- | discriminate].
  destruct (dict_get doc "rows" (PyList [])) as [rows |]; cbn [res_bind] in *;
    [| discriminate].
  destruct (py_iter rows) as [data_sets |]; cbn [res_bind] in *; [| discriminate].
  rewrite merge_rows_updates in H.
  destruct (res_map (row_updates self) data_sets) as [updates |] eqn:Hup; [| discriminate].
  cbn [res_bind] in H. injection H as <-. right.
  exists context_prefix, (concat updates). split; [reflexivity | split].
  - by apply rate_field_session, (determine_context_prefix_cases resource_name).
  - intros rec_dict'. rewrite merge_rows_updates, Hup. auto.
Qed.

Lemma fold_store_extends context_prefix updates rec_dict t rec :
  rec_dict !! t = Some rec ->
  exists rec',
    fold_left (store self context_prefix) updates rec_dict !! t = Some rec'
    /\ (forall field, field <> rate_field context_prefix -> rec' !! field = rec !! field)
    /\ (forall field, is_Some (rec !! field) -> is_Some (rec' !! field)).
Proof.
  intros Hrec. rewrite lookup_fold_store, Hrec, fold_store_at_some.
  destruct (last_rate t updates) as [rate |]; eexists; (split; [reflexivity |]).
  - split; intros field H.
    + by rewrite lookup_insert_ne.
    + destruct (decide (rate_field context_prefix = field)) as [<- | Hne].
      * rewrite lookup_insert_eq. eauto.
      * by rewrite lookup_insert_ne.
  - auto.
Qed.

(** X10. Merging a resource only extends the record dictionary: a
    timestamp it held is still there, every field of its record is still
    there, the fields that are not session rates ([ts], [datetime],
    [market_area], [currency]) keep the value of the first writer, and
    so does every session rate but the one of the resource's own
    session. *)
Theorem merging_only_extends_records rec_dict resource_name w merged w' t rec :
  merge_resource self rec_dict resource_name w = (Returned merged, w') ->
  rec_dict !! t = Some rec ->
  exists rec',
    merged !! t = Some rec'
    /\ (forall field, field ∉ session_fields -> rec' !! field = rec !! field)
    /\ (forall field, is_Some (rec !! field) -> is_Some (rec' !! field))
    /\ (forall context_prefix field,
          _determine_context_prefix resource_name = Ok (Some context_prefix) ->
          field <> rate_field context_prefix ->
          rec' !! field = rec !! field).
Proof.
  intros Hrun Hrec. apply merge_resource_returned in Hrun as (doc & Hdoc).
  apply merge_document_updates in Hdoc
    as [-> | (context_prefix & updates & Hprefix & Hfield & Hall)].
  - exists rec. auto.
  - destruct (Hall rec_dict) as [_ ->].
    destruct (fold_store_extends context_prefix updates rec_dict t rec Hrec)
      as (rec' & H1 & H2 & H3).
    exists rec'. repeat split; [exact H1 | | exact H3 |].
    + intros field Hne. apply H2. intros ->. contradiction.
    + intros context_prefix' field Hp' Hne. rewrite Hprefix in Hp'.
      injection Hp' as <-. by apply H2.
Qed.


(** *** Finalization *)

Lemma finalize_record_value rec :
  finalize_record rec !! "final_kwh_rate"
  = match first_present session_fields rec with
    | Some v => Some v
    | None => rec !! "final_kwh_rate"
    end.
Proof.
  unfold first_present, session_fields, finalize_record. cbn [omap list_omap].
  destruct (rec !! "ida3_kwh_rate"); [by rewrite lookup_insert_eq |].
  destruct (rec !! "ida2_kwh_rate"); [by rewrite lookup_insert_eq |].
  destruct (rec !! "ida1_kwh_rate"); [by rewrite lookup_insert_eq |].
  destruct (rec !! "da_kwh_rate"); [by rewrite lookup_insert_eq |].
  reflexivity.
Qed.

Lemma first_present_finalized rec :
  first_present session_fields (finalize_record rec) = first_present session_fields rec.
Proof.
  unfold first_present, session_fields. cbn [omap list_omap].
  by rewrite (finalize_record_other rec "ida3_kwh_rate"),
    (finalize_record_other rec "ida2_kwh_rate"),
    (finalize_record_other rec "ida1_kwh_rate"),
    (finalize_record_other rec "da_kwh_rate") by done.
Qed.

Lemma finalize_record_idempotent rec :
  finalize_record (finalize_record rec) = finalize_record rec.
Proof.
  apply map_eq. intros field.
  destruct (decide (field = "final_kwh_rate")) as [-> | Hne].
  - rewrite (finalize_record_value (finalize_record rec)), first_present_finalized.
    rewrite (finalize_record_value rec).
    destruct (first_present session_fields rec); reflexivity.
  - by rewrite finalize_record_other.
Qed.

(** X12. Finalization can be run again: on a record, the final rate is
    the first session rate present in priority order, whatever final rate
    the record held before, and a record without session rate is left as
    it is; running [_finalize_records] twice is running it once. *)
Theorem finalization_can_be_rerun rec_dict :
  _finalize_records (_finalize_records rec_dict) = _finalize_records rec_dict
  /\ (forall rec v,
        first_present session_fields rec = Some v ->
        finalize_record rec !! "final_kwh_rate" = Some v)
  /\ (forall rec,
        first_present session_fields rec = None -> finalize_record rec = rec)
  /\ (forall rec field,
        field <> "final_kwh_rate" -> finalize_record rec !! field = rec !! field).
Proof.
  repeat split.
  - unfold _finalize_records. rewrite <- map_fmap_compose. apply map_fmap_ext.
    intros t rec _. apply finalize_record_idempotent.
  - intros rec v Hv. by rewrite finalize_record_value, Hv.
  - intros rec. unfold first_present, session_fields, finalize_record.
    cbn [omap list_omap].
    destruct (rec !! "ida3_kwh_rate"); [discriminate |].
    destruct (rec !! "ida2_kwh_rate"); [discriminate |].
    destruct (rec !! "ida1_kwh_rate"); [discriminate |].
    destruct (rec !! "da_kwh_rate"); [discriminate | reflexivity].
  - intros rec field. apply finalize_record_other.
Qed.

(** *** The shape of the records *)

Lemma session_field_cases field :
  field ∈ session_fields ->
  field = "ida3_kwh_rate" \/ field = "ida2_kwh_rate"
  \/ field = "ida1_kwh_rate" \/ field = "da_kwh_rate".
Proof.
  unfold session_fields. rewrite !elem_of_cons, elem_of_nil. tauto.
Qed.

Lemma data_rec_base key : record_base self (fst key) (data_rec self key).
Proof.
  unfold record_base, data_rec. repeat split.
  - eexists. by rewrite lookup_insert_ne, lookup_insert_eq.
  - intros field v [-> | [-> | [-> | ->]]]%session_field_cases;
      by rewrite !lookup_insert_ne, lookup_empty.
Qed.

Lemma record_ok_store field rate t rec :
  field ∈ session_fields ->
  record_base self t rec ->
  record_ok self t (<[field := PyFloat rate]> rec).
Proof.
  intros Hfield (Hts & Harea & Hcur & Hdt & Hfloat).
  assert (field <> "ts" /\ field <> "market_area" /\ field <> "currency"
          /\ field <> "datetime") as (N1 & N2 & N3 & N4).
  { apply session_field_cases in Hfield as [-> | [-> | [-> | ->]]]; done. }
  split; [| exists field; split; [assumption | by rewrite lookup_insert_eq]].
  unfold record_base. rewrite !lookup_insert_ne by assumption.
  repeat split; try assumption.
  intros field' v Hf'. destruct (decide (field = field')) as [<- | Hne].
  - rewrite lookup_insert_eq. intros [= <-]. eauto.
  - rewrite lookup_insert_ne by assumption. by apply Hfloat.
Qed.

Lemma fold_store_records_ok context_prefix updates :
  forall rec_dict,
  rate_field context_prefix ∈ session_fields ->
  records_ok self rec_dict ->
  records_ok self (fold_left (store self context_prefix) updates rec_dict).
Proof.
  induction updates as [|u updates IH]; intros rec_dict Hfield Hok; [exact Hok |].
  cbn [fold_left]. apply IH; [assumption |].
  intros t rec. rewrite lookup_store. unfold store_at.
  destruct (decide (fst (fst u) = t)) as [<- | Hne]; [| apply Hok].
  intros [= <-]. apply record_ok_store; [assumption |].
  destruct (rec_dict !! fst (fst u)) as [rec |] eqn:Hrec; cbn [default].
  - by destruct (Hok _ _ Hrec).
  - apply data_rec_base.
Qed.

Lemma merge_resources_records_ok resource_names :
  forall rec_dict w merged w',
  records_ok self rec_dict ->
  io_fold (merge_resource self) rec_dict resource_names w = (Returned merged, w') ->
  records_ok self merged.
Proof.
  apply (io_fold_invariant (records_ok self)).
  intros rec_dict resource_name w merged w' Hok H.
  apply merge_resource_returned in H as (doc & H).
  apply merge_document_updates in H
    as [-> | (context_prefix & updates & _ & Hfield & Hall)]; [exact Hok |].
  destruct (Hall rec_dict) as [_ ->]. by apply fold_store_records_ok.
Qed.

Lemma first_present_some fields rec field :
  field ∈ fields -> is_Some (rec !! field) ->
  exists field' v, field' ∈ fields /\ rec !! field' = Some v
                   /\ first_present fields rec = Some v.
Proof.
  unfold first_present. induction fields as [|f fields IH]; intros Hin Hsome.
  - by apply elem_of_nil in Hin.
  - cbn [omap list_omap]. destruct (rec !! f) as [v |] eqn:Hf.
    + exists f, v. repeat split; [apply list_elem_of_here | assumption].
    + apply elem_of_cons in Hin as [-> | Hin].
      * rewrite Hf in Hsome. by destruct Hsome.
      * destruct (IH Hin Hsome) as (f' & v & H1 & H2 & H3).
        exists f', v. repeat split; [by apply list_elem_of_further | assumption ..].
Qed.

(** X13. Every record of the result of [_retrieve_market_results] is
    complete: under its timestamp [t] it holds [ts = t], the configured
    [market_area] and [currency], a [datetime] string, a float under each
    session field it has, at least one session field, and therefore a
    float [final_kwh_rate] (the final rate is never absent from a
    result). *)
Theorem result_records_are_complete report_dict w result w' t rec :
  _retrieve_market_results self report_dict w = (Returned result, w') ->
  areas result !! t = Some rec ->
  record_ok self t rec
  /\ exists rate, rec !! "final_kwh_rate" = Some (PyFloat rate).
Proof.
  rewrite retrieve_finish. unfold finish_merge, io_bind.
  destruct (io_fold (merge_resource self) ∅ (all_resources report_dict) w)
    as [[merged | e |] w1] eqn:Hrun; try discriminate.
  intros Hret Hrec.
  assert (areas result = _finalize_records merged) as Hareas.
  { unfold io_ret in Hret. destruct (decide (_finalize_records merged = ∅)) as [-> | _];
      by injection Hret as <- <-. }
  rewrite Hareas in Hrec. unfold _finalize_records in Hrec. rewrite lookup_fmap in Hrec.
  destruct (merged !! t) as [rec0 |] eqn:Hrec0; [| discriminate].
  injection Hrec as <-.
  assert (record_ok self t rec0) as ((Hts & Harea & Hcur & Hdt & Hfloat) & field & Hin & Hsome).
  { eapply (merge_resources_records_ok _ ∅ w merged w1); [| exact Hrun | exact Hrec0].
    intros t' rec'. by rewrite lookup_empty. }
  assert (forall f, f ∈ session_fields -> f <> "final_kwh_rate") as Hne.
  { intros f [-> | [-> | [-> | ->]]]%session_field_cases; done. }
  split.
  - split; [| exists field; split; [assumption |]].
    + unfold record_base. rewrite !finalize_record_other by done.
      repeat split; try assumption.
      intros f v Hf. rewrite finalize_record_other by (by apply Hne). by apply Hfloat.
    + rewrite finalize_record_other by (by apply Hne). exact Hsome.
  - destruct (first_present_some session_fields rec0 field Hin Hsome)
      as (f & v & Hf & Hv & Hfirst).
    destruct (Hfloat f v Hf Hv) as (rate & ->). exists rate.
    by rewrite finalize_record_value, Hfirst.
Qed.

End Fetch.

(** * The statements on concrete inputs *)

#[local] Existing Instance UtcLib.lib.

(** The day-ahead scenario as the specification words it, with the area
    descriptor as element 0 of the row: [data_set_list[0][1]] is then the
    character ["O"], the row is skipped and no record is produced.  C3 as
    stated fails. *)
Lemma specified_row_gives_no_record :
  _retrieve_market_results utc_prices [("2024-01-01", Report "2024-01-01" [PyStr "SEM-DA-1"])]
    (World [JsonBody (rows_doc [da_row (PyStr "ROI-desc") PyNone])] [])
  = (Returned (Prices ∅), World [] [GetDocument (PyStr "SEM-DA-1")])
  /\ getitem_int (PyStr "ROI-desc") 1 = Ok (PyStr "O")
  /\ contains "ROI" (PyStr "O") = Ok false.
Proof. repeat split; vm_compute; reflexivity. Qed.

(** The day-ahead scenario with the area at [data_set_list[0][1]]. *)
Lemma day_ahead_row_gives_one_record_witness :
  exists rec,
    _retrieve_market_results utc_prices [("2024-01-01", Report "2024-01-01" [PyStr "SEM-DA-1"])]
      (World [JsonBody (rows_doc [da_row (PyList [PyStr "DA"; PyStr "ROI-desc"]) PyNone])] [])
    = (Returned (Prices {[timestamp new_year := rec]}),
       World [] ([] ++ [GetDocument (PyStr "SEM-DA-1")]))
    /\ rec !! "da_kwh_rate" = Some (PyFloat float_one)
    /\ rec !! "final_kwh_rate" = Some (PyFloat float_one).
Proof.
  apply (day_ahead_row_gives_one_record utc_prices "SEM-DA-1" "2024-01-01"
           (PyStr "DA") PyNone new_year []).
  - reflexivity.
  - reflexivity.
  - apply list_elem_of_here.
  - reflexivity.
Defined.

(** A day-ahead and a later intraday document for one timestamp: the
    final rate is the intraday one. *)
Lemma final_rate_is_highest_priority_witness :
  two_session_record !! "final_kwh_rate" = first_present session_fields two_session_record
  /\ ((forall field, field ∈ session_fields -> two_session_record !! field = None) ->
      two_session_record !! "final_kwh_rate" = None).
Proof.
  apply (final_rate_is_highest_priority utc_prices
           [("2024-01-01", Report "2024-01-01" [PyStr "SEM-DA-1"; PyStr "SEM-IDA2-1"])]
           (World [JsonBody da_document; JsonBody ida2_document] [])
           (Prices {[new_year_ts := two_session_record]})
           (World [] [GetDocument (PyStr "SEM-DA-1"); GetDocument (PyStr "SEM-IDA2-1")])
           new_year_ts two_session_record).
  - vm_compute. reflexivity.
  - vm_compute. reflexivity.
Defined.


(** Merging the day-ahead row into the dictionary it produced. *)
Lemma merge_rows_idempotent_witness :
  res_fold (merge_row utc_prices "da_") {[new_year_ts := da_record]}
    [da_row (PyList [PyStr "DA"; PyStr "ROI-desc"]) PyNone]
  = Ok {[new_year_ts := da_record]}
  /\ exists updates,
       res_map (row_updates utc_prices)
         [da_row (PyList [PyStr "DA"; PyStr "ROI-desc"]) PyNone] = Ok updates
       /\ forall t rate, last_rate t (concat updates) = Some rate ->
            exists rec, ({[new_year_ts := da_record]} : gmap Z (gmap string pyval)) !! t = Some rec
                        /\ rec !! rate_field "da_" = Some (PyFloat rate).
Proof.
  apply (merge_rows_idempotent utc_prices "da_"
           [da_row (PyList [PyStr "DA"; PyStr "ROI-desc"]) PyNone] ∅).
  vm_compute. reflexivity.
Defined.


(** A [fetch] with an unknown timezone ends at the first timestamp, the
    second index page and document still on the queue. *)
Lemma invalid_timezone_not_retried_witness :
  (timezone lost_prices ∉ all_timezones)
  /\ fetch lost_prices
       (World [JsonBody (index_doc [index_item "2024-01-01T12:00:00" "SEM-DA-1"] 1);
               JsonBody da_document;
               JsonBody (index_doc [index_item "2024-01-01T12:00:00" "SEM-DA-1"] 1);
               JsonBody da_document] [])
     = (Raised (ValueError "Invalid timezone: Mars/Olympus"),
        World [JsonBody (index_doc [index_item "2024-01-01T12:00:00" "SEM-DA-1"] 1);
               JsonBody da_document]
              [GetIndex 1; GetDocument (PyStr "SEM-DA-1")]).
Proof.
  assert (timezone lost_prices ∉ all_timezones) as Htz.
  { intros H. apply list_elem_of_singleton in H. discriminate. }
  split; [exact Htz |].
  apply (proj2 (proj2 (proj2 (invalid_timezone_not_retried lost_prices Htz)))).
  vm_compute. reflexivity.
Defined.

(** A resource answered with status 204, before a day-ahead resource. *)
Lemma no_content_resource_skipped_witness :
  merge_resource utc_prices ∅ (PyStr "SEM-IDA1-1")
    (World [Status204; JsonBody da_document] [])
  = (Returned ∅, World [JsonBody da_document] ([] ++ [GetDocument (PyStr "SEM-IDA1-1")]))
  /\ _retrieve_market_results utc_prices
       [("2024-01-01", Report "2024-01-01" [PyStr "SEM-IDA1-1"; PyStr "SEM-DA-1"])]
       (World [Status204; JsonBody da_document] [])
     = finish_merge utc_prices ∅ [PyStr "SEM-DA-1"]
         (World [JsonBody da_document] ([] ++ [GetDocument (PyStr "SEM-IDA1-1")])).
Proof.
  pose proof (no_content_resource_skipped utc_prices Status204 ∅ (PyStr "SEM-IDA1-1")
                [JsonBody da_document] [] eq_refl) as (Hskip & _ & Hall).
  split; [exact Hskip |].
  apply (Hall _ [] [PyStr "SEM-DA-1"]); reflexivity.
Defined.

(** Two prices for one timestamp, and one price for two timestamps. *)
Lemma price_list_length_mismatch_witness :
  merge_row utc_prices "da_" ∅ long_prices_row = Raise IndexError
  /\ merge_row utc_prices "da_" ∅ short_prices_row
     = Ok (fold_left (store utc_prices "da_")
             (zip (take 1 [(new_year_ts, new_year);
                           (new_year_ts + 3600, UtcLib.Civil 2024 1 1 1 0 0)])
                  [float_one]) ∅).
Proof.
  split.
  - apply (proj1 (price_list_length_mismatch utc_prices "da_" ∅ long_prices_row
                    (PyList [PyStr "DA"; PyStr "ROI-desc"]) (PyStr "ROI-desc")
                    (PyList [PyStr "2024-01-01T00:00:00Z"]) [PyStr "2024-01-01T00:00:00Z"]
                    [(new_year_ts, new_year)]
                    (PyList [PyInt 1000; PyInt 1200]) [PyInt 1000; PyInt 1200]
                    [float_one; float_1_2]
                    eq_refl eq_refl eq_refl eq_refl eq_refl eq_refl eq_refl eq_refl
                    ltac:(repeat constructor))).
    cbn. lia.
  - apply (proj2 (price_list_length_mismatch utc_prices "da_" ∅ short_prices_row
                    (PyList [PyStr "DA"; PyStr "ROI-desc"]) (PyStr "ROI-desc")
                    (PyList [PyStr "2024-01-01T00:00:00Z"; PyStr "2024-01-01T01:00:00Z"])
                    [PyStr "2024-01-01T00:00:00Z"; PyStr "2024-01-01T01:00:00Z"]
                    [(new_year_ts, new_year);
                     (new_year_ts + 3600, UtcLib.Civil 2024 1 1 1 0 0)]
                    (PyList [PyInt 1000]) [PyInt 1000]
                    [float_one]
                    eq_refl eq_refl eq_refl eq_refl eq_refl eq_refl eq_refl eq_refl
                    ltac:(repeat constructor))).
    cbn. lia.
Defined.

(** The walk over [two_pages] collects the six resources. *)
Lemma walker_collects_every_resource_once_witness :
  exists report_dict,
    fst (_fetch_semopx_json 5 (World (map JsonBody two_pages ++ []) []))
    = Returned report_dict
    /\ all_resources report_dict ≡ₚ map snd (all_items (take 2 two_pages_decoded)).
Proof.
  apply (walker_collects_every_resource_once 5 two_pages two_pages_decoded [] [] 2).
  - repeat constructor.
  - cbn. lia.
  - vm_compute. reflexivity.
  - intros k Hk. assert (k = 1%nat) as -> by lia. vm_compute. reflexivity.
Defined.

(** The first of [two_pages], then status 204 for page 2. *)
Lemma index_without_content_raises_type_error_witness :
  _fetch_semopx_json 5 (World (map JsonBody (take 1 two_pages) ++ Status204 :: []) [])
  = (Raised TypeError,
     World [] ([] ++ map GetIndex (seqZ 1 (Z.of_nat (S (length (take 1 two_pages)))))))
  /\ fetch utc_prices (World (map JsonBody (take 1 two_pages) ++ Status204 :: []) [])
     = (Raised TypeError,
        World [] ([] ++ map GetIndex (seqZ 1 (Z.of_nat (S (length (take 1 two_pages))))))).
Proof.
  assert (forall k, (1 <= k <= length (take 1 two_pages_decoded))%nat ->
                    stop_after 5 (take 1 two_pages_decoded) k = false) as Hnever.
  { intros k Hk. cbn in Hk. assert (k = 1%nat) as -> by lia. vm_compute. reflexivity. }
  pose proof (index_without_content_raises_type_error utc_prices 5
                (take 1 two_pages) (take 1 two_pages_decoded) Status204 [] []
                ltac:(repeat constructor) Hnever (or_introl eq_refl)) as [Hwalk Hfetch].
  split; [exact Hwalk | exact (Hfetch eq_refl)].
Defined.

(** A transport failure on page 1, then an index without items. *)
Lemma fetch_retries_from_what_is_left_witness :
  fetch utc_prices (World [ClientFailure; JsonBody empty_index] [])
  = fetch utc_prices (World [JsonBody empty_index] [GetIndex 1]).
Proof.
  apply (fetch_retries_from_what_is_left utc_prices
           (World [ClientFailure; JsonBody empty_index] []) ClientError
           (World [JsonBody empty_index] [GetIndex 1])).
  - vm_compute. reflexivity.
  - reflexivity.
Defined.

(** A resource without session tag, answered with the day-ahead
    document. *)
Lemma unrecognized_resource_is_fetched_and_skipped_witness :
  merge_resource utc_prices ∅ (PyStr "SEM-BALANCING-1")
    (World (JsonBody da_document :: []) [])
  = (Returned ∅, World [] ([] ++ [GetDocument (PyStr "SEM-BALANCING-1")])).
Proof.
  apply (unrecognized_resource_is_fetched_and_skipped utc_prices "SEM-BALANCING-1"
           (JsonBody da_document) ∅ [] []); try reflexivity.
  discriminate.
Defined.

(** A row of the area NI, for a client of the area ROI whose timezone is
    unknown. *)
Lemma rows_of_other_areas_contribute_nothing_witness :
  merge_resource lost_prices ∅ (PyStr "SEM-DA-1")
    (World (JsonBody (rows_doc [da_row (PyList [PyStr "DA"; PyStr "NI-desc"]) PyNone]) :: [])
           [])
  = (Returned ∅, World [] ([] ++ [GetDocument (PyStr "SEM-DA-1")])).
Proof.
  apply (rows_of_other_areas_contribute_nothing lost_prices "SEM-DA-1"
           (rows_doc [da_row (PyList [PyStr "DA"; PyStr "NI-desc"]) PyNone])
           (PyList [da_row (PyList [PyStr "DA"; PyStr "NI-desc"]) PyNone])
           [da_row (PyList [PyStr "DA"; PyStr "NI-desc"]) PyNone] ∅ [] []);
    reflexivity.
Defined.

(** The intraday document merged over the day-ahead record. *)
Lemma merging_only_extends_records_witness :
  exists rec',
    ({[new_year_ts := <["ida2_kwh_rate" := PyFloat float_1_2]> da_record]}
       : gmap Z (gmap string pyval)) !! new_year_ts = Some rec'
    /\ (forall field, field ∉ session_fields -> rec' !! field = da_record !! field)
    /\ (forall field, is_Some (da_record !! field) -> is_Some (rec' !! field))
    /\ (forall context_prefix field,
          _determine_context_prefix (PyStr "SEM-IDA2-1") = Ok (Some context_prefix) ->
          field <> rate_field context_prefix ->
          rec' !! field = da_record !! field).
Proof.
  apply (merging_only_extends_records utc_prices {[new_year_ts := da_record]}
           (PyStr "SEM-IDA2-1") (World [JsonBody ida2_document] [])
           {[new_year_ts := <["ida2_kwh_rate" := PyFloat float_1_2]> da_record]}
           (World [] [GetDocument (PyStr "SEM-IDA2-1")]) new_year_ts da_record).
  - vm_compute. reflexivity.
  - vm_compute. reflexivity.
Defined.


(** The record of a day-ahead and an intraday document. *)
Lemma result_records_are_complete_witness :
  record_ok utc_prices new_year_ts two_session_record
  /\ exists rate, two_session_record !! "final_kwh_rate" = Some (PyFloat rate).
Proof.
  apply (result_records_are_complete utc_prices
           [("2024-01-01", Report "2024-01-01" [PyStr "SEM-DA-1"; PyStr "SEM-IDA2-1"])]
           (World [JsonBody da_document; JsonBody ida2_document] [])
           (Prices {[new_year_ts := two_session_record]})
           (World [] [GetDocument (PyStr "SEM-DA-1"); GetDocument (PyStr "SEM-IDA2-1")])
           new_year_ts two_session_record).
  - vm_compute. reflexivity.
  - vm_compute. reflexivity.
Defined.

(** The walk over [two_pages], whose dates are sorted. *)
Lemma walker_groups_adjacent_dates_witness :
  fst (_fetch_semopx_json 5 (World (map JsonBody two_pages ++ []) []))
  = Returned (grouped (all_items (take 2 two_pages_decoded))).
Proof.
  apply (walker_groups_adjacent_dates 5 two_pages two_pages_decoded [] [] 2).
  - repeat constructor.
  - cbn. lia.
  - vm_compute. reflexivity.
  - intros k Hk. assert (k = 1%nat) as -> by lia. vm_compute. reflexivity.
  - vm_compute. reflexivity.
Defined.

(** An index page whose only item has no [Date]: every request is
    answered, and the walker raises the [KeyError] of [item_rec['Date']]. *)
Lemma walker_own_exceptions_are_key_or_type_errors_witness :
  fst (_fetch_semopx_json 5
         (World [JsonBody (PyDict [("items", PyList [PyDict []])])] []))
  = Raised KeyError
  /\ (KeyError = KeyError \/ KeyError = TypeError).
Proof.
  split; [vm_compute; reflexivity |].
  refine (walker_own_exceptions_are_key_or_type_errors 5
            (World [JsonBody (PyDict [("items", PyList [PyDict []])])] []) _).
  repeat constructor.
Defined.
